(** * chzzk-vod-dl: the segment downloader of [main.py], embedded and verified

    [main.py] is a linear script: a fetch loop with retries over numbered
    [.ts] segments, a writer of the concat list for the muxer, one shell
    call, and a cleanup of the working directory.  This file embeds the
    script function by function and proves the properties of its
    specification.

    Conventions of the embedding.
    - A Python [str] is a [string]; each [ascii] stands for the code point
      of the same number, so the strings covered are those over U+0000 to
      U+00FF.  [str.isalnum] and [str.isspace] are CPython's tables on that
      range.
    - A Python [int] is a [Z].
    - The operating system is a [world]: a table of directories and the
      ordered log of what the script printed, requested, slept and ran.
      Paths follow [posixpath].
    - The HTTP server is an oracle giving the response to each attempt on
      each segment.
    - Python exceptions are the [Raise] outcome; the [while True] loop of
      the fetcher runs on fuel. *)

From Stdlib Require Import ZArith Ascii String DecimalString DecimalN Sorted.
From stdpp Require Import base strings gmap list sorting.

Open Scope Z_scope.

(** ** Python strings *)

Module PyStr.

Definition ord (c : ascii) : N := N_of_ascii c.

Definition between (lo hi : N) (c : ascii) : bool :=
  ((lo <=? ord c) && (ord c <=? hi))%N.

(** [c.isalnum()]: letters and every kind of number, over U+0000..U+00FF.
    Past ASCII these are the ordinal indicators, the micro sign, the
    superscripts 1 2 3, the vulgar fractions and the accented letters
    (all of U+00C0..U+00FF but the two operators U+00D7 and U+00F7). *)
Definition isalnum (c : ascii) : bool :=
  between 48 57 c || between 65 90 c || between 97 122 c
  || between 170 170 c || between 178 179 c || between 181 181 c
  || between 185 186 c || between 188 190 c
  || between 192 214 c || between 216 246 c || between 248 255 c.

(** [c.isspace()] over U+0000..U+00FF: TAB LF VT FF CR, the four
    separators FS GS RS US, the space, NEL and the no-break space. *)
Definition isspace (c : ascii) : bool :=
  between 9 13 c || between 28 32 c || between 133 133 c
  || between 160 160 c.

(** [all(p(c) for c in s)] *)
Fixpoint all (p : ascii -> bool) (s : string) : bool :=
  match s with
  | EmptyString => true
  | String c s' => p c && all p s'
  end.

(** [c in t] for a tuple [t] of one-character strings *)
Definition in_tuple (c : ascii) (t : list ascii) : bool :=
  existsb (Ascii.eqb c) t.

(** ["".join(c for c in s if p(c))] *)
Fixpoint join_if (p : ascii -> bool) (s : string) : string :=
  match s with
  | EmptyString => EmptyString
  | String c s' => if p c then String c (join_if p s') else join_if p s'
  end.

(** [s.lstrip(...)] and [s.rstrip(...)], the stripped characters given
    by a predicate *)
Fixpoint lstrip_if (p : ascii -> bool) (s : string) : string :=
  match s with
  | EmptyString => EmptyString
  | String c s' => if p c then lstrip_if p s' else s
  end.

Fixpoint rstrip_if (p : ascii -> bool) (s : string) : string :=
  match s with
  | EmptyString => EmptyString
  | String c s' =>
      match rstrip_if p s' with
      | EmptyString => if p c then EmptyString else String c EmptyString
      | r => String c r
      end
  end.

(** [s.strip()]: whitespace goes from both ends *)
Definition strip (s : string) : string :=
  lstrip_if isspace (rstrip_if isspace s).

(** Whether the first, or the last, character of [s] satisfies [p] *)
Definition first_is (p : ascii -> bool) (s : string) : bool :=
  match s with
  | EmptyString => false
  | String c _ => p c
  end.

Fixpoint last_is (p : ascii -> bool) (s : string) : bool :=
  match s with
  | EmptyString => false
  | String c EmptyString => p c
  | String _ s' => last_is p s'
  end.

(** [s.startswith(p)] *)
Fixpoint startswith (s p : string) {struct p} : bool :=
  match p with
  | EmptyString => true
  | String a p' =>
      match s with
      | EmptyString => false
      | String b s' => Ascii.eqb a b && startswith s' p'
      end
  end.

(** [sub in s] *)
Fixpoint contains (s sub : string) : bool :=
  startswith s sub ||
  match s with
  | EmptyString => false
  | String _ s' => contains s' sub
  end.

(** the line feed and the double quote, which have no literal *)
Definition LF : string := String (ascii_of_nat 10) EmptyString.
Definition DQUOTE : string := String (ascii_of_nat 34) EmptyString.

(** [s.endswith(suf)] *)
Fixpoint endswith (s suf : string) : bool :=
  String.eqb s suf ||
  match s with
  | EmptyString => false
  | String _ s' => endswith s' suf
  end.

(** [s.replace(old, new)]: every occurrence of [old], found left to right
    without overlap, becomes [new].  [skip] counts the characters of a
    matched occurrence still to be passed over. *)
Fixpoint replace_from (old new : string) (skip : nat) (s : string) : string :=
  match s with
  | EmptyString => EmptyString
  | String c s' =>
      match skip with
      | S k => replace_from old new k s'
      | O =>
          if startswith s old
          then new +:+ replace_from old new (String.length old - 1) s'
          else String c (replace_from old new O s')
      end
  end.

(** With an empty [old] Python puts [new] before every character and at
    the end. *)
Fixpoint intersperse (new s : string) : string :=
  match s with
  | EmptyString => new
  | String c s' => new +:+ String c (intersperse new s')
  end.

Definition replace (s old new : string) : string :=
  match old with
  | EmptyString => intersperse new s
  | _ => replace_from old new O s
  end.

(** The decimal digits of a natural number, most significant first. *)
Definition digits (n : N) : string := NilZero.string_of_uint (N.to_uint n).

(** [str(n)] for an [int] *)
Definition str_of_int (n : Z) : string :=
  if n <? 0 then String "-" (digits (Z.abs_N n)) else digits (Z.abs_N n).

Fixpoint zeros (n : nat) : string :=
  match n with
  | O => EmptyString
  | S k => String "0" (zeros k)
  end.

(** [format(n, "06d")]: the sign if any, then the digits padded with
    zeros on the left up to six characters in all. *)
Definition format_06d (n : Z) : string :=
  let d := digits (Z.abs_N n) in
  if n <? 0
  then String "-" (zeros (5 - String.length d) +:+ d)
  else zeros (6 - String.length d) +:+ d.

End PyStr.

(** ** [sanitize_filename] *)

Definition sanitize_filename (filename : string) : string :=
  PyStr.strip
    (PyStr.join_if
       (fun c => PyStr.isalnum c || PyStr.in_tuple c [" "; "."; "_"; "-"]%char)
       filename).

(** ** Paths, after [posixpath] *)

Module PosixPath.

Definition is_sep (c : ascii) : bool := Ascii.eqb c "/".

(** [p[p.rfind("/") + 1:]]: [tail] is the candidate found so far, [s]
    what is left to scan. *)
Fixpoint after_last_sep (tail s : string) : string :=
  match s with
  | EmptyString => tail
  | String c s' =>
      if is_sep c then after_last_sep s' s' else after_last_sep tail s'
  end.

Definition basename (p : string) : string := after_last_sep p p.

(** [head = p[:i]], and [head.rstrip("/")] unless [head] is made of
    separators only (the empty head included). *)
Definition dirname (p : string) : string :=
  let head :=
    String.substring 0 (String.length p - String.length (basename p)) p in
  if PyStr.all is_sep head then head else PyStr.rstrip_if is_sep head.

(** [os.path.join(a, b)] *)
Definition join (a b : string) : string :=
  if PyStr.startswith b "/" then b
  else if String.eqb a "" || PyStr.endswith a "/" then a +:+ b
  else a +:+ "/" +:+ b.

End PosixPath.

(** ** The world the script runs in *)

(** An entry of a directory: a regular file with its content, or a
    subdirectory. *)
Inductive node : Type :=
  | NFile (content : string)
  | NDir.

(** What the script does that can be observed from outside, apart from the
    files it writes. *)
Inductive event : Type :=
  | EPrompt (text : string)
  | EPrint (line : string)
  | EGet (url : string) (timeout : Z)
  | ESleep (seconds : Z)
  | ESystem (command : string).

(** Directories are known by their path; a file is found through
    [dirname] and [basename] of its path, the empty directory name being
    the current directory. *)
Record world : Type := World {
  w_fs : gmap string (gmap string node);
  w_log : list event
}.

Inductive exn : Type :=
  | RequestException (msg : string)
  | FileNotFoundError (path : string)
  | IsADirectoryError (path : string)
  | ValueError (msg : string).

Inductive outcome (A : Type) : Type :=
  | Ok (a : A) (w : world)
  | Raise (e : exn) (w : world)
  | OutOfFuel.

Arguments Ok {A} a w.
Arguments Raise {A} e w.
Arguments OutOfFuel {A}.

(** Computations of the script: they read and change the world, and end
    with a value or an exception. *)
Definition M (A : Type) : Type := world -> outcome A.

#[global] Instance M_ret : MRet M := fun A a w => Ok a w.

#[global] Instance M_bind : MBind M := fun A B f m w =>
  match m w with
  | Ok a w' => f a w'
  | Raise e w' => Raise e w'
  | OutOfFuel => OutOfFuel
  end.

Definition raise {A : Type} (e : exn) : M A := fun w => Raise e w.

(** [try: m  except requests.exceptions.RequestException as e: h e] *)
Definition except_request {A : Type} (m : M A) (h : string -> M A) : M A :=
  fun w =>
    match m w with
    | Raise (RequestException msg) w' => h msg w'
    | r => r
    end.

(** [for x in l: body x] *)
Fixpoint for_each {A : Type} (l : list A) (body : A -> M unit) : M unit :=
  match l with
  | [] => mret tt
  | x :: l' => body x ;; for_each l' body
  end.

(** [range(n)] *)
Definition range (n : Z) : list Z := map Z.of_nat (seq 0 (Z.to_nat n)).

Module Os.

Definition set_fs (fs : gmap string (gmap string node)) (w : world) : world :=
  {| w_fs := fs; w_log := w_log w |}.

Definition emit (e : event) : M unit :=
  fun w => Ok tt {| w_fs := w_fs w; w_log := w_log w ++ [e] |}.

Definition print (line : string) : M unit := emit (EPrint line).

(** [input(prompt)], the user typing [typed] *)
Definition input (prompt typed : string) : M string :=
  emit (EPrompt prompt) ;; mret typed.

(** [time.sleep(seconds)] refuses a negative length *)
Definition sleep (seconds : Z) : M unit :=
  if seconds <? 0
  then raise (ValueError "sleep length must be non-negative")
  else emit (ESleep seconds).

(** [os.system(command)]: the command is run; what it does to the files
    is outside the model, and the script drops its exit status. *)
Definition system (command : string) : M unit := emit (ESystem command).

(** [os.makedirs(p, exist_ok=True)]: [p] is created when absent.  The
    empty path is refused; other failures (a regular file in the way,
    rights) are outside the model. *)
Definition makedirs (p : string) : M unit :=
  fun w =>
    if String.eqb p "" then Raise (FileNotFoundError p) w
    else
      match w_fs w !! p with
      | Some _ => Ok tt w
      | None => Ok tt (set_fs (<[p := ∅]> (w_fs w)) w)
      end.

(** [open(p, "w")]: the file is created or emptied.  Its directory must
    exist and [p] must not name a directory. *)
Definition open_w (p : string) : M unit :=
  fun w =>
    match w_fs w !! PosixPath.dirname p with
    | None => Raise (FileNotFoundError p) w
    | Some d =>
        if String.eqb (PosixPath.basename p) "" then Raise (IsADirectoryError p) w
        else
          match d !! PosixPath.basename p with
          | Some NDir => Raise (IsADirectoryError p) w
          | _ =>
              Ok tt (set_fs (<[PosixPath.dirname p :=
                                 <[PosixPath.basename p := NFile ""]> d]> (w_fs w)) w)
          end
    end.

(** [file.write(data)] on the file opened at [p] *)
Definition write (p data : string) : M unit :=
  fun w =>
    match w_fs w !! PosixPath.dirname p with
    | Some d =>
        match d !! PosixPath.basename p with
        | Some (NFile content) =>
            Ok tt (set_fs (<[PosixPath.dirname p :=
                               <[PosixPath.basename p := NFile (content +:+ data)]> d]>
                             (w_fs w)) w)
        | _ => Raise (ValueError "I/O operation on closed file") w
        end
    | None => Raise (ValueError "I/O operation on closed file") w
    end.

(** [os.listdir(p)], in the order the table gives; the empty path is
    refused *)
Definition listdir (p : string) : M (list string) :=
  fun w =>
    if String.eqb p "" then Raise (FileNotFoundError p) w
    else
      match w_fs w !! p with
      | Some d => Ok (map_to_list d).*1 w
      | None => Raise (FileNotFoundError p) w
      end.

(** [os.remove(p)]: only a regular file can be removed *)
Definition remove (p : string) : M unit :=
  fun w =>
    match w_fs w !! PosixPath.dirname p with
    | None => Raise (FileNotFoundError p) w
    | Some d =>
        match d !! PosixPath.basename p with
        | Some (NFile _) =>
            Ok tt (set_fs (<[PosixPath.dirname p :=
                               delete (PosixPath.basename p) d]> (w_fs w)) w)
        | Some NDir => Raise (IsADirectoryError p) w
        | None => Raise (FileNotFoundError p) w
        end
    end.

End Os.

(** ** The HTTP server *)

(** A response of [requests.get(url, stream=True, timeout=10)]: the status
    code, the chunks [iter_content] yields, and the transport fault that
    cuts the body short, if any. *)
Record response : Type := Response {
  status_code : Z;
  chunks : list string;
  cut_short : option string
}.

(** What one attempt meets: a response, or a [RequestException] raised by
    [requests.get] itself. *)
Inductive reply : Type :=
  | Answers (r : response)
  | Fails (msg : string).

(** The server as seen by the fetcher: the reply to attempt [attempt]
    (counted from 0) on segment [segment_number]. *)
Definition oracle : Type := Z -> Z -> reply.

Definition requests_get (srv : oracle) (segment_number attempt : Z)
    (url : string) (timeout : Z) : M response :=
  Os.emit (EGet url timeout) ;;
  match srv segment_number attempt with
  | Answers r => mret r
  | Fails msg => raise (RequestException msg)
  end.

(** [for chunk in response.iter_content(chunk_size=8192): file.write(chunk)] *)
Definition write_content (file_path : string) (r : response) : M unit :=
  for_each (chunks r) (Os.write file_path) ;;
  match cut_short r with
  | Some msg => raise (RequestException msg)
  | None => mret tt
  end.

(** An attempt downloads the segment when the status is 200 and the body
    arrives whole; every other reply is a failed attempt. *)
Definition delivers (rp : reply) : bool :=
  match rp with
  | Answers r => (status_code r =? 200) && bool_decide (cut_short r = None)
  | Fails _ => false
  end.

(** ** [download_ts_segments] *)

(** The variables of the [while] loop. *)
Record fetch_state : Type := FetchState {
  segment_number : Z;
  failed_attempts : Z;
  ts_files : list string
}.

(** The [try] statement of one attempt.  [Some st'] is the [break] after a
    download; [None] lets the retry logic run. *)
Definition attempt_once (srv : oracle) (temp_folder url segment_str : string)
    (retries attempt : Z) (st : fetch_state) : M (option fetch_state) :=
  except_request
    (Os.print ("Downloading " +:+ url +:+ " (Attempt "
               +:+ PyStr.str_of_int (attempt + 1) +:+ "/"
               +:+ PyStr.str_of_int retries +:+ ")...") ;;
     r ← requests_get srv (segment_number st) attempt url 10 ;
     if status_code r =? 200 then
       let sanitized_filename := sanitize_filename (segment_str +:+ ".ts") in
       let file_path := PosixPath.join temp_folder sanitized_filename in
       Os.open_w file_path ;;
       write_content file_path r ;;
       Os.print ("Downloaded: " +:+ file_path) ;;
       mret (Some {| segment_number := segment_number st;
                     failed_attempts := 0;
                     ts_files := ts_files st ++ [file_path] |})
     else
       Os.print ("Failed to download: " +:+ url +:+ " (Status code: "
                 +:+ PyStr.str_of_int (status_code r) +:+ ")") ;;
       mret None)
    (fun msg =>
       Os.print ("Error downloading " +:+ url +:+ ": " +:+ msg) ;;
       mret None).

(** [for attempt in range(retries)]: the result carries [success]. *)
Fixpoint retry_loop (srv : oracle) (temp_folder url segment_str : string)
    (retries backoff : Z) (attempts : list Z) (st : fetch_state)
    : M (bool * fetch_state) :=
  match attempts with
  | [] => mret (false, st)
  | attempt :: rest =>
      got ← attempt_once srv temp_folder url segment_str retries attempt st ;
      match got with
      | Some st' => mret (true, st')
      | None =>
          (if attempt <? retries - 1
           then Os.sleep (backoff * (attempt + 1))
           else mret tt) ;;
          retry_loop srv temp_folder url segment_str retries backoff rest st
      end
  end.

(** The URL of a segment *)
Definition segment_url (base_url : string) (segment_number : Z) : string :=
  PyStr.replace base_url "-000000.ts"
    ("-" +:+ PyStr.format_06d segment_number +:+ ".ts").

(** One turn of the [while True] loop.  The boolean is [true] when the
    loop is left by [break]; otherwise the segment number has moved on. *)
Definition fetch_step (srv : oracle) (base_url temp_folder : string)
    (retries backoff : Z) (st : fetch_state) : M (bool * fetch_state) :=
  let segment_str := PyStr.format_06d (segment_number st) in
  let url := PyStr.replace base_url "-000000.ts" ("-" +:+ segment_str +:+ ".ts") in
  '(success, st1) ← retry_loop srv temp_folder url segment_str retries backoff
                      (range retries) st ;
  if negb success then
    let st2 := {| segment_number := segment_number st1;
                  failed_attempts := failed_attempts st1 + 1;
                  ts_files := ts_files st1 |} in
    Os.print ("Failed to download " +:+ url +:+ " after "
              +:+ PyStr.str_of_int retries +:+ " retries.") ;;
    if failed_attempts st2 >=? 5 then
      Os.print "Reached maximum consecutive failures. Stopping." ;;
      mret (true, st2)
    else
      mret (false, {| segment_number := segment_number st2 + 1;
                      failed_attempts := failed_attempts st2;
                      ts_files := ts_files st2 |})
  else
    mret (false, {| segment_number := segment_number st1 + 1;
                    failed_attempts := failed_attempts st1;
                    ts_files := ts_files st1 |}).

(** The [while True] loop, on fuel: one turn per unit. *)
Fixpoint fetch_loop (fuel : nat) (srv : oracle) (base_url temp_folder : string)
    (retries backoff : Z) (st : fetch_state) : M fetch_state :=
  match fuel with
  | O => fun _ => OutOfFuel
  | S fuel' =>
      '(stop, st') ← fetch_step srv base_url temp_folder retries backoff st ;
      match stop with
      | true => mret st'
      | false => fetch_loop fuel' srv base_url temp_folder retries backoff st'
      end
  end.

(** The first [n] turns of the loop; it stays where a [break] left it. *)
Fixpoint fetch_turns (n : nat) (srv : oracle) (base_url temp_folder : string)
    (retries backoff : Z) (st : fetch_state) : M (bool * fetch_state) :=
  match n with
  | O => mret (false, st)
  | S n' =>
      '(stop, st') ← fetch_turns n' srv base_url temp_folder retries backoff st ;
      match stop with
      | true => mret (true, st')
      | false => fetch_step srv base_url temp_folder retries backoff st'
      end
  end.

Definition fetch_start : fetch_state :=
  {| segment_number := 0; failed_attempts := 0; ts_files := [] |}.

(** The whole function, with the final values of the loop variables. *)
Definition download_run (fuel : nat) (srv : oracle) (base_url temp_folder : string)
    (retries backoff : Z) : M fetch_state :=
  Os.makedirs temp_folder ;;
  Os.print "Starting download..." ;;
  fetch_loop fuel srv base_url temp_folder retries backoff fetch_start.

Definition download_ts_segments (fuel : nat) (srv : oracle)
    (base_url temp_folder : string) (retries backoff : Z) : M (list string) :=
  st ← download_run fuel srv base_url temp_folder retries backoff ;
  mret (ts_files st).

(** ** [create_ffmpeg_file_list] *)

Definition create_ffmpeg_file_list (ts_files : list string) (temp_folder : string)
    : M string :=
  let list_file_path := PosixPath.join temp_folder "file_list.txt" in
  Os.open_w list_file_path ;;
  for_each ts_files (fun ts_file =>
    let base_filename := PosixPath.basename ts_file in
    Os.write list_file_path ("file '" +:+ base_filename +:+ "'" +:+ PyStr.LF)) ;;
  Os.print ("Created FFmpeg file list at " +:+ list_file_path) ;;
  mret list_file_path.

(** ** [combine_ts_files_ffmpeg] *)

Definition combine_ts_files_ffmpeg (file_list_path output_file : string) : M unit :=
  Os.makedirs (PosixPath.dirname output_file) ;;
  Os.system ("ffmpeg -f concat -safe 0 -i " +:+ PyStr.DQUOTE +:+ file_list_path
             +:+ PyStr.DQUOTE +:+ " -c copy " +:+ PyStr.DQUOTE +:+ output_file
             +:+ PyStr.DQUOTE) ;;
  Os.print ("Combined .ts files into " +:+ output_file).

(** ** [cleanup_ts_files] *)

Definition cleanup_ts_files (ts_folder : string) : M unit :=
  names ← Os.listdir ts_folder ;
  for_each names (fun ts_file =>
    if PyStr.endswith ts_file ".ts"
    then Os.remove (PosixPath.join ts_folder ts_file)
    else mret tt) ;;
  Os.print "All .ts files have been deleted.".

(** ** The script *)

(** The two prompts, the user typing [typed_url] and [typed_name]. *)
Definition read_inputs (typed_url typed_name : string) : M (string * string) :=
  u ← Os.input "Enter the full URL with -000000.ts segment (e.g., ...-000000.ts): "
        typed_url ;
  n ← Os.input "Enter output video file name (with extension, e.g., video.mp4): "
        typed_name ;
  mret (PyStr.strip u, PyStr.strip n).

Definition main (fuel : nat) (srv : oracle) (typed_url typed_name : string) : M unit :=
  '(base_url, name) ← read_inputs typed_url typed_name ;
  let output_file_name :=
    if String.eqb name "" then "combined_video.mp4"%string else name in
  let temp_folder := "temp_files"%string in
  let output_folder := "output_video"%string in
  let output_video_path := PosixPath.join output_folder output_file_name in
  ts_files ← download_ts_segments fuel srv base_url temp_folder 3 2 ;
  match ts_files with
  | _ :: _ =>
      ffmpeg_file_list ← create_ffmpeg_file_list ts_files temp_folder ;
      combine_ts_files_ffmpeg ffmpeg_file_list output_video_path ;;
      cleanup_ts_files temp_folder
  | [] => Os.print "No .ts files were downloaded."
  end.

(** The sleeps of a log, in order *)
Definition sleeps (log : list event) : list Z :=
  omap (fun e => match e with ESleep d => Some d | _ => None end) log.

(** The world a computation started in [w] leaves, however it ends. *)
Definition world_of {A : Type} (o : outcome A) (w : world) : world :=
  match o with
  | Ok _ w' => w'
  | Raise _ w' => w'
  | OutOfFuel => w
  end.

(** * The vocabulary of the properties *)

(** The characters [sanitize_filename] lets through. *)
Definition kept (c : ascii) : bool :=
  PyStr.isalnum c || PyStr.in_tuple c [" "; "."; "_"; "-"]%char.

(** The characters the specification names: the ASCII letters and digits,
    the space, the period, the underscore and the hyphen. *)
Definition plain (c : ascii) : bool :=
  PyStr.between 65 90 c || PyStr.between 97 122 c || PyStr.between 48 57 c
  || PyStr.in_tuple c [" "; "."; "_"; "-"]%char.

(** U+00E9, the e with an acute accent *)
Definition e_acute : ascii := ascii_of_nat 233.

(** The marker of the segment number in the URL.  It starts with its only
    hyphen, so two occurrences never overlap. *)
Definition marker : string := "-000000.ts".

(** A name without separator: what a directory entry is called. *)
Definition sep_free (name : string) : bool :=
  PyStr.all (fun c => negb (PosixPath.is_sep c)) name.

(** A directory path written without a trailing separator.  The empty path,
    the current directory, is one. *)
Definition tidy (folder : string) : Prop :=
  PyStr.last_is PosixPath.is_sep folder = false.

(** The text a loop of [write] appends *)
Definition written {A : Type} (f : A -> string) (l : list A) : string :=
  fold_right (fun x rest => f x +:+ rest) EmptyString l.

Definition unlines (lines : list string) : string :=
  written (fun line => line +:+ PyStr.LF) lines.

(** The lines the muxer is to read: one per path, in the order of the
    list, naming the file by its base name. *)
Definition manifest_lines (ts_files : list string) : list string :=
  map (fun ts_file => "file '" +:+ PosixPath.basename ts_file +:+ "'") ts_files.

(** A flat directory: every entry is a regular file, under a name without
    separator. *)
Definition flat (d : gmap string node) : Prop :=
  map_Forall (fun name e => e <> NDir /\ sep_free name = true) d.

(** What the loop of [cleanup_ts_files] has made of a directory after the
    names [l]. *)
Fixpoint swept (l : list string) (d : gmap string node) : gmap string node :=
  match l with
  | [] => d
  | name :: l' =>
      swept l' (if PyStr.endswith name ".ts" then delete name d else d)
  end.

(** The characters of a formatted segment number: digits, and the sign. *)
Definition numeric (c : ascii) : bool :=
  PyStr.between 48 57 c || Ascii.eqb c "-".

(** The path under which segment [i] is saved *)
Definition segment_file (temp_folder : string) (i : Z) : string :=
  PosixPath.join temp_folder (PyStr.format_06d i +:+ ".ts").

(** The working directory is there and holds no subdirectory: every file
    of it can be opened for writing. *)
Definition ready (temp_folder : string) (w : world) : Prop :=
  exists d, w_fs w !! temp_folder = Some d /\ forall name, d !! name <> Some NDir.

(** The loop variables after segment [segment_number st] is downloaded,
    before the number moves on. *)
Definition downloaded (temp_folder : string) (st : fetch_state) : fetch_state :=
  {| segment_number := segment_number st;
     failed_attempts := 0;
     ts_files := ts_files st ++ [segment_file temp_folder (segment_number st)] |}.

(** The attempts of [attempts], taken in order, that fail on segment
    [seg] before the first that delivers. *)
Fixpoint failed_first (srv : oracle) (seg : Z) (attempts : list Z) : list Z :=
  match attempts with
  | [] => []
  | a :: rest =>
      if delivers (srv seg a) then [] else a :: failed_first srv seg rest
  end.

(** Segment [seg] is downloaded within [retries] attempts. *)
Definition succeeds (srv : oracle) (retries seg : Z) : bool :=
  existsb (fun a => delivers (srv seg a)) (range retries).

(** What one turn makes of the loop variables, and whether it is the last:
    a downloaded segment is recorded and clears the count of failures; a
    failed one adds to the count, and the fifth in a row stops the loop
    before the number moves on. *)
Definition after_segment (srv : oracle) (temp_folder : string) (retries : Z)
    (st : fetch_state) : bool * fetch_state :=
  if succeeds srv retries (segment_number st)
  then (false, {| segment_number := segment_number st + 1;
                  failed_attempts := 0;
                  ts_files := ts_files st
                              ++ [segment_file temp_folder (segment_number st)] |})
  else if failed_attempts st + 1 >=? 5
  then (true, {| segment_number := segment_number st;
                 failed_attempts := failed_attempts st + 1;
                 ts_files := ts_files st |})
  else (false, {| segment_number := segment_number st + 1;
                  failed_attempts := failed_attempts st + 1;
                  ts_files := ts_files st |}).

(** The loop variables when the loop stops, if [fuel] turns are enough. *)
Fixpoint loop_end (fuel : nat) (srv : oracle) (temp_folder : string)
    (retries : Z) (st : fetch_state) : option fetch_state :=
  match fuel with
  | O => None
  | S fuel' =>
      match after_segment srv temp_folder retries st with
      | (true, st') => Some st'
      | (false, st') => loop_end fuel' srv temp_folder retries st'
      end
  end.

(** The working directory can be used: if it exists it holds no
    subdirectory. *)
Definition usable (temp_folder : string) (w : world) : Prop :=
  temp_folder <> EmptyString /\
  match w_fs w !! temp_folder with
  | Some d => forall name, d !! name <> Some NDir
  | None => True
  end.

(** The loop variables after [n] turns, and whether the loop has stopped. *)
Fixpoint after_turns (n : nat) (srv : oracle) (temp_folder : string)
    (retries : Z) (st : fetch_state) : bool * fetch_state :=
  match n with
  | O => (false, st)
  | S n' =>
      match after_turns n' srv temp_folder retries st with
      | (true, st') => (true, st')
      | (false, st') => after_segment srv temp_folder retries st'
      end
  end.

(** The files recorded so far are those of segments met so far, in
    increasing order. *)
Definition listed (temp_folder : string) (st : fetch_state) : Prop :=
  exists idxs : list Z,
    ts_files st = map (segment_file temp_folder) idxs
    /\ StronglySorted Z.lt idxs
    /\ Forall (fun i => 0 <= i < segment_number st) idxs.

(** ** Sample servers and worlds *)

Definition whole_body : response :=
  {| status_code := 200; chunks := ["ab"; "cd"]; cut_short := None |}.

Definition cut_body : response :=
  {| status_code := 200; chunks := ["ab"]; cut_short := Some "connection reset" |}.

Definition not_found : response :=
  {| status_code := 404; chunks := []; cut_short := None |}.

(** Segments 0 to 2 are there and come whole at the second attempt, the
    first being cut short; no other segment exists. *)
Definition short_stream : oracle :=
  fun seg attempt =>
    if (0 <=? seg) && (seg <=? 2)
    then (if attempt =? 0 then Answers cut_body else Answers whole_body)
    else Answers not_found.

(** Every segment is there but 3 and 5, on which the connection fails. *)
Definition gapped_stream : oracle :=
  fun seg attempt =>
    if (seg =? 3) || (seg =? 5) then Fails "timed out" else Answers whole_body.

(** Nothing answers. *)
Definition dead_server : oracle := fun _ _ => Fails "connection refused".

(** A world with no directory yet, and one whose working directory holds
    two segments and a note. *)
Definition bare_world : world := {| w_fs := ∅; w_log := [] |}.

Definition used_folder : gmap string node :=
  <["000000.ts" := NFile "abcd"]>
    (<["clip.ts" := NFile "x"]> (<["notes.txt" := NFile "n"]> ∅)).

Definition used_world : world :=
  {| w_fs := <["temp_files" := used_folder]> ∅; w_log := [] |}.

(** ** Further vocabulary *)

(** The file name of segment [i] *)
Definition segment_name (i : Z) : string := PyStr.format_06d i +:+ ".ts".

(** The number a string of digits writes, leading zeros allowed *)
Definition read_digits (s : string) : option N :=
  option_map N.of_uint (NilEmpty.uint_of_string s).

(** The requests of a log, in order: URL and timeout *)
Definition gets (log : list event) : list (string * Z) :=
  omap (fun e => match e with EGet url t => Some (url, t) | _ => None end) log.

(** The commands of a log, in order *)
Definition commands (log : list event) : list string :=
  omap (fun e => match e with ESystem c => Some c | _ => None end) log.

(** The entry [name] of directory [dir], if both exist *)
Definition entry (w : world) (dir name : string) : option node :=
  match w_fs w !! dir with
  | Some d => d !! name
  | None => None
  end.

(** The whole body of a response *)
Definition body_of (r : response) : string := written (fun x => x) (chunks r).

(** The first attempt of [attempts] that delivers segment [seg] *)
Fixpoint first_delivery (srv : oracle) (seg : Z) (attempts : list Z)
    : option response :=
  match attempts with
  | [] => None
  | a :: rest =>
      match srv seg a with
      | Answers r =>
          if (status_code r =? 200) && bool_decide (cut_short r = None)
          then Some r else first_delivery srv seg rest
      | Fails _ => first_delivery srv seg rest
      end
  end.

(** What attempt [attempt] on segment [seg] leaves in the segment's file,
    [old] being there before: a response with status 200 replaces it by the
    body received, whole or cut short. *)
Definition stored (srv : oracle) (seg attempt : Z) (old : option node)
    : option node :=
  match srv seg attempt with
  | Answers r => if status_code r =? 200 then Some (NFile (body_of r)) else old
  | Fails _ => old
  end.

(** The number of requests of one turn: the failed attempts, and the one
    that delivers if there is one. *)
Definition attempts_made (srv : oracle) (seg : Z) (attempts : list Z) : nat :=
  (length (failed_first srv seg attempts)
   + if existsb (fun a => delivers (srv seg a)) attempts then 1 else 0)%nat.

(** What the retry loop leaves in the segment's file: each attempt made
    stores what it received, and the loop ends with the first that
    delivers. *)
Fixpoint stored_after (srv : oracle) (seg : Z) (attempts : list Z)
    (old : option node) : option node :=
  match attempts with
  | [] => old
  | a :: rest =>
      if delivers (srv seg a) then stored srv seg a old
      else stored_after srv seg rest (stored srv seg a old)
  end.

(** The requests of the loop from [st] on, turn by turn, until it stops
    or [fuel] runs out. *)
Fixpoint loop_requests (fuel : nat) (srv : oracle) (base_url temp_folder : string)
    (retries : Z) (st : fetch_state) : list (string * Z) :=
  match fuel with
  | O => []
  | S fuel' =>
      replicate (attempts_made srv (segment_number st) (range retries))
        (segment_url base_url (segment_number st), 10)
      ++ match after_segment srv temp_folder retries st with
         | (true, _) => []
         | (false, st') => loop_requests fuel' srv base_url temp_folder retries st'
         end
  end.

(** The state of the loop between two turns. *)
Definition between_turns (srv : oracle) (tf : string) (retries : Z)
    (st : fetch_state) : Prop :=
  0 <= failed_attempts st < 5
  /\ failed_attempts st <= segment_number st
  /\ (forall j, segment_number st - failed_attempts st <= j < segment_number st ->
        succeeds srv retries j = false)
  /\ (failed_attempts st < segment_number st ->
        succeeds srv retries (segment_number st - failed_attempts st - 1) = true)
  /\ (forall s, 4 <= s < segment_number st ->
        exists j, s - 4 <= j <= s /\ succeeds srv retries j = true)
  /\ ts_files st
     = map (segment_file tf)
         (List.filter (succeeds srv retries) (range (segment_number st))).

(** The state of the loop when it has stopped. *)
Definition stopped (srv : oracle) (tf : string) (retries : Z)
    (st : fetch_state) : Prop :=
  failed_attempts st = 5
  /\ 4 <= segment_number st
  /\ (forall j, segment_number st - 4 <= j <= segment_number st ->
        succeeds srv retries j = false)
  /\ (forall s, 4 <= s < segment_number st ->
        exists j, s - 4 <= j <= s /\ succeeds srv retries j = true)
  /\ ts_files st
     = map (segment_file tf)
         (List.filter (succeeds srv retries) (range (segment_number st))).

(** A computation that never removes a directory, however it ends *)
Definition keeps_dirs {A : Type} (m : M A) : Prop :=
  forall w,
    match m w with
    | Ok _ w' | Raise _ w' =>
        forall p, is_Some (w_fs w !! p) -> is_Some (w_fs w' !! p)
    | OutOfFuel => True
    end.

(** Directory [dir] of [w], if there at all, is flat. *)
Definition flat_at (w : world) (dir : string) : Prop :=
  forall name e, entry w dir name = Some e -> e <> NDir /\ sep_free name = true.



(** ** Further samples *)

(** Every segment is there, at the first attempt. *)
Definition live_stream : oracle := fun _ _ => Answers whole_body.

(** The working directory with a subdirectory named as a segment *)
Definition blocked_folder : gmap string node := <["old.ts" := NDir]> used_folder.

Definition blocked_world : world :=
  {| w_fs := <["temp_files" := blocked_folder]> ∅; w_log := [] |}.

Definition sample_url : string := "https://cdn.example/v/seg-000000.ts".

(** The sum of a list of durations *)
Definition total (l : list Z) : Z := fold_right Z.add 0 l.

(** * Properties *)

(** ** Strings *)

Section StripFacts.

Variables p q : ascii -> bool.

Lemma all_join_if s : PyStr.all p (PyStr.join_if p s) = true.
Proof.
  induction s as [|c s IH]; simpl; [done|].
  destruct (p c) eqn:Hc; simpl; [by rewrite Hc|done].
Qed.

Lemma join_if_all s : PyStr.all p s = true -> PyStr.join_if p s = s.
Proof.
  induction s as [|c s IH]; simpl; [done|].
  intros [Hc Hs]%andb_prop. rewrite Hc. by rewrite IH.
Qed.

Lemma all_lstrip_if s :
  PyStr.all q s = true -> PyStr.all q (PyStr.lstrip_if p s) = true.
Proof.
  induction s as [|c s IH]; simpl; [done|].
  intros H. destruct (andb_prop _ _ H) as [Hc Hs].
  destruct (p c); [by apply IH|]. simpl. by rewrite Hc.
Qed.

Lemma all_rstrip_if s :
  PyStr.all q s = true -> PyStr.all q (PyStr.rstrip_if p s) = true.
Proof.
  induction s as [|c s IH]; simpl; [done|].
  intros [Hc Hs]%andb_prop. specialize (IH Hs).
  destruct (PyStr.rstrip_if p s) as [|c' r].
  - destruct (p c); simpl; [done|by rewrite Hc].
  - change (q c && PyStr.all q (String c' r) = true). by rewrite Hc.
Qed.

Lemma first_is_lstrip_if s : PyStr.first_is p (PyStr.lstrip_if p s) = false.
Proof.
  induction s as [|c s IH]; simpl; [done|].
  destruct (p c) eqn:Hc; [done|]. simpl. exact Hc.
Qed.

Lemma last_is_rstrip_if s : PyStr.last_is p (PyStr.rstrip_if p s) = false.
Proof.
  induction s as [|c s IH]; simpl; [done|].
  destruct (PyStr.rstrip_if p s) as [|c' r].
  - destruct (p c) eqn:Hc; simpl; [done|exact Hc].
  - exact IH.
Qed.

Lemma lstrip_if_first s :
  PyStr.first_is p s = false -> PyStr.lstrip_if p s = s.
Proof. destruct s as [|c s]; simpl; [done|]. by intros ->. Qed.

Lemma rstrip_if_last s :
  PyStr.last_is p s = false -> PyStr.rstrip_if p s = s.
Proof.
  induction s as [|c s IH]; [done|].
  destruct s as [|c' s'].
  - simpl. by intros ->.
  - intros H. change (PyStr.last_is p (String c' s') = false) in H.
    change (match PyStr.rstrip_if p (String c' s') with
            | EmptyString => if p c then EmptyString else String c EmptyString
            | r => String c r
            end = String c (String c' s')).
    by rewrite (IH H).
Qed.

Lemma last_is_lstrip_if s :
  PyStr.last_is q s = false -> PyStr.last_is q (PyStr.lstrip_if p s) = false.
Proof.
  induction s as [|c s IH]; [done|].
  intros H. simpl PyStr.lstrip_if. destruct (p c); [|exact H].
  apply IH. destruct s; [done|exact H].
Qed.

End StripFacts.

Lemma strip_strip s : PyStr.strip (PyStr.strip s) = PyStr.strip s.
Proof.
  unfold PyStr.strip.
  rewrite (rstrip_if_last PyStr.isspace (PyStr.lstrip_if _ _)).
  - apply lstrip_if_first, first_is_lstrip_if.
  - apply last_is_lstrip_if, last_is_rstrip_if.
Qed.

Lemma all_strip q s : PyStr.all q s = true -> PyStr.all q (PyStr.strip s) = true.
Proof. intros H. by apply all_lstrip_if, all_rstrip_if. Qed.

(** ** [sanitize_filename] *)

Lemma plain_kept c : plain c = true -> kept c = true.
Proof.
  unfold plain, kept, PyStr.isalnum. intros H.
  destruct (PyStr.between 48 57 c), (PyStr.between 65 90 c),
    (PyStr.between 97 122 c); cbn [orb] in *; try done.
  rewrite H. apply orb_true_r.
Qed.

(** C3, as stated, fails on a name with an accented letter: the letter is
    alphanumeric for Python and goes through, although it is none of the
    characters named. *)
Lemma sanitize_filename_keeps_accent :
  sanitize_filename (String e_acute "cole.ts") = String e_acute "cole.ts"
  /\ PyStr.all plain (sanitize_filename (String e_acute "cole.ts")) = false.
Proof. split; vm_compute; reflexivity. Qed.

(** C3, amended: every character of the result is alphanumeric in Python's
    sense (which takes in letters and digits beyond ASCII) or one of the
    space, the period, the underscore and the hyphen; and the result
    neither starts nor ends with whitespace. *)
Theorem sanitize_filename_charset (filename : string) :
  PyStr.all kept (sanitize_filename filename) = true
  /\ PyStr.first_is PyStr.isspace (sanitize_filename filename) = false
  /\ PyStr.last_is PyStr.isspace (sanitize_filename filename) = false.
Proof.
  unfold sanitize_filename. fold kept. split; [|split].
  - apply all_strip, all_join_if.
  - apply first_is_lstrip_if.
  - apply last_is_lstrip_if, last_is_rstrip_if.
Qed.

(** C9: sanitising twice is sanitising once. *)
Theorem sanitize_filename_idempotent (filename : string) :
  sanitize_filename (sanitize_filename filename) = sanitize_filename filename.
Proof.
  unfold sanitize_filename. fold kept.
  rewrite (join_if_all kept (PyStr.strip _)).
  - apply strip_strip.
  - apply all_strip, all_join_if.
Qed.

(** ** The URL of a segment *)

Lemma app_String c (a b : string) : String c a +:+ b = String c (a +:+ b).
Proof. reflexivity. Qed.

Lemma app_empty (b : string) : EmptyString +:+ b = b.
Proof. reflexivity. Qed.

Lemma string_app_assoc (a b c : string) : (a +:+ b) +:+ c = a +:+ (b +:+ c).
Proof.
  induction a as [|x a IH]; [done|]. rewrite !app_String. by f_equal.
Qed.

Lemma string_app_length (a b : string) :
  String.length (a +:+ b) = (String.length a + String.length b)%nat.
Proof.
  induction a as [|x a IH]; [done|]. rewrite app_String. simpl. by rewrite IH.
Qed.

Lemma startswith_app s p : PyStr.startswith (p +:+ s) p = true.
Proof.
  induction p as [|a p IH]; [done|]. rewrite app_String. simpl.
  by rewrite Ascii.eqb_refl, IH.
Qed.

Lemma startswith_split s p :
  PyStr.startswith s p = true -> exists r, s = p +:+ r.
Proof.
  revert s. induction p as [|a p IH]; intros s; simpl.
  - by exists s.
  - destruct s as [|b s]; [done|].
    intros [Hab Hs]%andb_prop. apply Ascii.eqb_eq in Hab as ->.
    destruct (IH _ Hs) as [r ->]. by exists r.
Qed.

Section ReplaceFacts.

Variables old new : string.

Lemma replace_from_skip u s :
  PyStr.replace_from old new (String.length u) (u +:+ s)
  = PyStr.replace_from old new O s.
Proof.
  induction u as [|c u IH]; [by destruct s|]. rewrite app_String. exact IH.
Qed.

Lemma replace_from_match c old' s :
  old = String c old' ->
  PyStr.replace_from old new O (old +:+ s)
  = new +:+ PyStr.replace_from old new O s.
Proof.
  intros E. pose proof (startswith_app s old) as Hm.
  rewrite E in Hm |- *. rewrite app_String in Hm |- *.
  cbn [PyStr.replace_from]. rewrite Hm. f_equal.
  replace (String.length (String c old') - 1)%nat with (String.length old')
    by (cbn [String.length]; lia).
  rewrite <- E. apply replace_from_skip.
Qed.

Lemma replace_from_absent s :
  PyStr.contains s old = false -> PyStr.replace_from old new O s = s.
Proof.
  induction s as [|c s IH]; [done|].
  cbn [PyStr.contains PyStr.replace_from].
  intros [Hm Hs]%orb_false_elim. rewrite Hm. by rewrite IH.
Qed.

(** Where no occurrence starts inside [pre], [pre] is copied. *)
Lemma replace_from_copy pre s :
  (forall u v, pre = u +:+ v -> v <> EmptyString ->
               PyStr.startswith (v +:+ s) old = false) ->
  PyStr.replace_from old new O (pre +:+ s)
  = pre +:+ PyStr.replace_from old new O s.
Proof.
  induction pre as [|c pre IH]; intros H; [done|].
  pose proof (H EmptyString (String c pre) eq_refl) as H0.
  rewrite !app_String in *. cbn [PyStr.replace_from].
  rewrite H0 by done. f_equal. apply IH.
  intros u v -> Hv. by apply (H (String c u) v).
Qed.

End ReplaceFacts.

Lemma marker_no_overlap c v s :
  PyStr.startswith (String c v +:+ marker +:+ s) marker = true ->
  PyStr.startswith (String c v) marker = true.
Proof.
  intros [r Hr]%startswith_split. unfold marker in *.
  do 9 (destruct v as [|? v]; [by inversion Hr|]).
  inversion Hr; subst. reflexivity.
Qed.

Lemma contains_suffix u v sub :
  PyStr.contains (u +:+ v) sub = false -> PyStr.contains v sub = false.
Proof.
  induction u as [|c u IH]; [done|]. rewrite app_String.
  cbn [PyStr.contains]. intros [_ H]%orb_false_elim. by apply IH.
Qed.

(** When the marker occurs once, it alone is rewritten: what stands before
    and after it, query string included, is copied in place. *)
Lemma segment_url_single (pre post : string) (i : Z) :
  PyStr.contains pre marker = false ->
  PyStr.contains post marker = false ->
  segment_url (pre +:+ marker +:+ post) i
  = pre +:+ ("-" +:+ PyStr.format_06d i +:+ ".ts") +:+ post.
Proof.
  intros Hpre Hpost. unfold segment_url, PyStr.replace. fold marker.
  change (match marker with EmptyString => _ | _ => ?x end) with x.
  rewrite replace_from_copy.
  - rewrite (replace_from_match marker _ "-" "000000.ts") by done.
    by rewrite (replace_from_absent _ _ _ Hpost).
  - intros u v -> Hv. destruct v as [|c v]; [done|].
    apply contains_suffix in Hpre. cbn [PyStr.contains] in Hpre.
    apply orb_false_elim in Hpre as [Hm _].
    destruct (PyStr.startswith (String c v +:+ marker +:+ post) marker) eqn:E;
      [|done].
    apply marker_no_overlap in E. congruence.
Qed.

(** C2 at a URL whose query string names the segment again: the query
    string is rewritten as well. *)
Theorem segment_url_rewrites_query :
  segment_url "https://cdn.example/v/seg-000000.ts?src=seg-000000.ts" 1
  = "https://cdn.example/v/seg-000001.ts?src=seg-000001.ts"
  /\ segment_url "https://cdn.example/v/seg-000000.ts?src=seg-000000.ts" 1
     <> "https://cdn.example/v/seg-000001.ts?src=seg-000000.ts".
Proof. split; [vm_compute; reflexivity|vm_compute; discriminate]. Qed.

(** ** Paths *)

Lemma after_last_sep_sep_free tail s :
  sep_free s = true -> PosixPath.after_last_sep tail s = tail.
Proof.
  revert tail. induction s as [|c s IH]; intros tail; [done|].
  unfold sep_free. cbn [PyStr.all PosixPath.after_last_sep].
  intros [Hc Hs]%andb_prop. apply negb_true_iff in Hc. rewrite Hc.
  by apply IH.
Qed.

Lemma after_last_sep_app tail u name :
  sep_free name = true ->
  PosixPath.after_last_sep tail (u +:+ String "/" name) = name.
Proof.
  intros Hn. revert tail. induction u as [|c u IH]; intros tail.
  - rewrite app_empty. cbn [PosixPath.after_last_sep].
    change (PosixPath.is_sep "/") with true. cbn iota.
    by apply after_last_sep_sep_free.
  - rewrite app_String. cbn [PosixPath.after_last_sep].
    destruct (PosixPath.is_sep c); apply IH.
Qed.

Lemma all_app q (a b : string) :
  PyStr.all q (a +:+ b) = PyStr.all q a && PyStr.all q b.
Proof.
  induction a as [|c a IH]; [done|]. rewrite app_String. simpl.
  by rewrite IH, andb_assoc.
Qed.

Lemma after_last_sep_inv pre s :
  sep_free pre = true ->
  sep_free (PosixPath.after_last_sep (pre +:+ s) s) = true.
Proof.
  revert pre. induction s as [|c s IH]; intros pre Hpre.
  - simpl. unfold sep_free in *. by rewrite all_app, Hpre.
  - cbn [PosixPath.after_last_sep]. destruct (PosixPath.is_sep c) eqn:Hc.
    + apply (IH EmptyString). done.
    + replace (pre +:+ String c s) with ((pre +:+ String c EmptyString) +:+ s)
        by (by rewrite string_app_assoc).
      apply IH. unfold sep_free in *. rewrite all_app, Hpre. simpl.
      by rewrite Hc.
Qed.

(** The base name has no directory part. *)
Lemma basename_sep_free p : sep_free (PosixPath.basename p) = true.
Proof. apply (after_last_sep_inv EmptyString p). done. Qed.

Lemma substring_app (a b : string) :
  String.substring 0 (String.length a) (a +:+ b) = a.
Proof.
  induction a as [|c a IH]; [by destruct b|].
  rewrite app_String. simpl. by rewrite IH.
Qed.

Lemma endswith_sep_last s :
  PyStr.last_is PosixPath.is_sep s = false -> PyStr.endswith s "/" = false.
Proof.
  induction s as [|c s IH]; [done|].
  intros H. cbn [PyStr.endswith]. destruct s as [|c' s'].
  - simpl in H. simpl. unfold PosixPath.is_sep in H. by rewrite H.
  - rewrite (IH H), orb_false_r. simpl. by destruct (Ascii.eqb c "/").
Qed.

Lemma rstrip_if_snoc q (s : string) c :
  PyStr.last_is q s = false -> q c = true ->
  PyStr.rstrip_if q (s +:+ String c EmptyString) = s.
Proof.
  intros Hs Hc. induction s as [|x s IH].
  - simpl. by rewrite Hc.
  - rewrite app_String. cbn [PyStr.rstrip_if]. destruct s as [|y s'].
    + simpl in Hs. rewrite app_empty. simpl. by rewrite Hc, Hs.
    + rewrite IH by exact Hs. done.
Qed.

Lemma all_sep_last s :
  s <> EmptyString -> PyStr.last_is PosixPath.is_sep s = false ->
  forall t, PyStr.all PosixPath.is_sep (s +:+ t) = false.
Proof.
  induction s as [|c s IH]; [done|]. intros _ H t.
  rewrite app_String. cbn [PyStr.all]. destruct s as [|c' s'].
  - simpl in H. by rewrite H.
  - rewrite IH; [apply andb_false_r|done|exact H].
Qed.

(** An entry [name] of a tidy [folder] is found again from its joined
    path. *)
Lemma split_join folder name :
  tidy folder -> sep_free name = true ->
  PosixPath.dirname (PosixPath.join folder name) = folder
  /\ PosixPath.basename (PosixPath.join folder name) = name.
Proof.
  intros Hf Hn. unfold PosixPath.join.
  assert (PyStr.startswith name "/" = false) as ->.
  { destruct name as [|c name]; [done|]. unfold sep_free in Hn. simpl in Hn.
    apply andb_prop in Hn as [Hc _]. apply negb_true_iff in Hc.
    unfold PosixPath.is_sep in Hc. cbn [PyStr.startswith].
    rewrite Ascii.eqb_sym, Hc. done. }
  rewrite (endswith_sep_last _ Hf), orb_false_r.
  destruct folder as [|c folder].
  - simpl String.eqb. cbn iota. rewrite app_empty.
    assert (PosixPath.basename name = name) as Hb
      by (by apply after_last_sep_sep_free).
    split; [|done]. unfold PosixPath.dirname. rewrite Hb, Nat.sub_diag.
    by destruct name.
  - simpl String.eqb. cbn iota.
    assert (PosixPath.basename (String c folder +:+ "/" +:+ name) = name) as Hb
      by (by apply after_last_sep_app).
    split; [|done]. unfold PosixPath.dirname. rewrite Hb.
    rewrite <- (string_app_assoc (String c folder) "/" name).
    rewrite string_app_length, Nat.add_sub, substring_app.
    rewrite all_sep_last by done.
    by apply rstrip_if_snoc.
Qed.

(** ** Running the script's computations *)

Lemma bind_Ok {A B} (m : M A) (f : A -> M B) w a w' :
  m w = Ok a w' -> (m ≫= f) w = f a w'.
Proof. unfold mbind, M_bind. by intros ->. Qed.

Lemma bind_Raise {A B} (m : M A) (f : A -> M B) w e w' :
  m w = Raise e w' -> (m ≫= f) w = Raise e w'.
Proof. unfold mbind, M_bind. by intros ->. Qed.

Lemma set_fs_log fs w : w_log (Os.set_fs fs w) = w_log w.
Proof. reflexivity. Qed.

Lemma set_fs_fs fs w : w_fs (Os.set_fs fs w) = fs.
Proof. reflexivity. Qed.

Lemma set_fs_set_fs fs fs' w : Os.set_fs fs (Os.set_fs fs' w) = Os.set_fs fs w.
Proof. reflexivity. Qed.

Lemma set_fs_same w : Os.set_fs (w_fs w) w = w.
Proof. by destruct w. Qed.

Lemma string_app_empty_r (s : string) : s +:+ EmptyString = s.
Proof. induction s as [|c s IH]; [done|]. rewrite app_String. by f_equal. Qed.

(** A loop of writes on an open file appends its pieces in order. *)
Lemma for_each_write {A : Type} (f : A -> string) (l : list A) p w d content :
  w_fs w !! PosixPath.dirname p = Some d ->
  d !! PosixPath.basename p = Some (NFile content) ->
  for_each l (fun x => Os.write p (f x)) w
  = Ok tt (Os.set_fs (<[PosixPath.dirname p :=
                         <[PosixPath.basename p := NFile (content +:+ written f l)]> d]>
                       (w_fs w)) w).
Proof.
  revert w d content. induction l as [|x l IH]; intros w d content Hd Hf.
  - cbn [for_each written]. unfold mret, M_ret. f_equal.
    rewrite string_app_empty_r, (insert_id d), (insert_id (w_fs w)) by done.
    by rewrite set_fs_same.
  - cbn [for_each written].
    erewrite bind_Ok; [|unfold Os.write; rewrite Hd, Hf; reflexivity].
    erewrite IH; [|rewrite set_fs_fs; apply lookup_insert_eq|apply lookup_insert_eq].
    rewrite set_fs_fs, set_fs_set_fs, !insert_insert_eq.
    by rewrite string_app_assoc.
Qed.

(** After [open(p, "w")] the file is there and empty. *)
Lemma open_w_run p w d :
  w_fs w !! PosixPath.dirname p = Some d ->
  PosixPath.basename p <> EmptyString ->
  d !! PosixPath.basename p <> Some NDir ->
  Os.open_w p w
  = Ok tt (Os.set_fs (<[PosixPath.dirname p :=
                         <[PosixPath.basename p := NFile ""]> d]> (w_fs w)) w).
Proof.
  intros Hd Hb Hn. unfold Os.open_w. rewrite Hd.
  destruct (String.eqb_spec (PosixPath.basename p) "") as [E|_]; [done|].
  destruct (d !! PosixPath.basename p) as [[c|]|]; done.
Qed.

(** ** The concat list *)

Lemma written_map {A B : Type} (g : A -> B) (f : B -> string) l :
  written f (map g l) = written (fun x => f (g x)) l.
Proof. induction l as [|x l IH]; [done|]. simpl. by rewrite IH. Qed.

(** C4: in an existing working directory where [file_list.txt] is not a
    directory, [create_ffmpeg_file_list] leaves in that file one line
    [file 'NAME'] per path, in the order of the list, [NAME] being the base
    name of the path, free of any directory part; it returns the path of
    the file. *)
Theorem create_ffmpeg_file_list_manifest
    (ts_files : list string) (temp_folder : string) (w : world)
    (d : gmap string node) :
  tidy temp_folder ->
  w_fs w !! temp_folder = Some d ->
  d !! "file_list.txt" <> Some NDir ->
  create_ffmpeg_file_list ts_files temp_folder w
  = Ok (PosixPath.join temp_folder "file_list.txt")
      {| w_fs := <[temp_folder :=
                    <["file_list.txt" := NFile (unlines (manifest_lines ts_files))]> d]>
                   (w_fs w);
         w_log := w_log w ++ [EPrint ("Created FFmpeg file list at "
                                       +:+ PosixPath.join temp_folder "file_list.txt")] |}
  /\ length (manifest_lines ts_files) = length ts_files
  /\ Forall (fun ts_file => sep_free (PosixPath.basename ts_file) = true) ts_files.
Proof.
  intros Ht Hd Hn. split; [|split].
  - destruct (split_join temp_folder "file_list.txt" Ht eq_refl) as [Edir Ebase].
    unfold create_ffmpeg_file_list.
    erewrite bind_Ok;
      [|apply (open_w_run _ _ d); rewrite ?Edir, ?Ebase; done].
    erewrite bind_Ok;
      [|eapply (for_each_write
                  (fun ts_file => "file '" +:+ PosixPath.basename ts_file
                                  +:+ "'" +:+ PyStr.LF) _ _ _ _ "");
        [rewrite set_fs_fs; apply lookup_insert_eq|apply lookup_insert_eq]].
    rewrite Edir, Ebase, set_fs_fs, set_fs_set_fs, !insert_insert_eq, app_empty.
    erewrite bind_Ok; [|reflexivity].
    unfold mret, M_ret. f_equal. unfold Os.set_fs. cbn [w_fs w_log]. f_equal.
    do 3 f_equal. unfold unlines, manifest_lines. rewrite written_map.
    clear. induction ts_files as [|x l IH]; [done|]. simpl. rewrite IH.
    by rewrite !string_app_assoc.
  - unfold manifest_lines. apply length_map.
  - apply Forall_forall. intros ts_file _. apply basename_sep_free.
Qed.

(** ** Cleanup *)

Lemma swept_lookup l d name :
  swept l d !! name
  = if bool_decide (name ∈ l) && PyStr.endswith name ".ts" then None
    else d !! name.
Proof.
  revert d. induction l as [|x l IH]; intros d; [done|].
  cbn [swept]. rewrite IH.
  destruct (decide (name = x)) as [->|Hne].
  - rewrite (bool_decide_eq_true_2 (x ∈ x :: l)) by apply list_elem_of_here.
    destruct (PyStr.endswith x ".ts"); cbn [andb].
    + rewrite lookup_delete_eq. by destruct (bool_decide (x ∈ l)).
    + by rewrite andb_false_r.
  - replace (bool_decide (name ∈ x :: l)) with (bool_decide (name ∈ l))
      by (apply bool_decide_ext; rewrite elem_of_cons; intuition congruence).
    destruct (bool_decide (name ∈ l) && PyStr.endswith name ".ts"); [done|].
    destruct (PyStr.endswith x ".ts"); [|done]. by rewrite lookup_delete_ne.
Qed.

Lemma remove_run p w d content :
  w_fs w !! PosixPath.dirname p = Some d ->
  d !! PosixPath.basename p = Some (NFile content) ->
  Os.remove p w
  = Ok tt (Os.set_fs (<[PosixPath.dirname p := delete (PosixPath.basename p) d]>
                       (w_fs w)) w).
Proof. intros Hd Hf. unfold Os.remove. by rewrite Hd, Hf. Qed.

Lemma cleanup_loop ts_folder l w d :
  tidy ts_folder ->
  NoDup l ->
  (forall name, name ∈ l ->
     sep_free name = true /\ exists content, d !! name = Some (NFile content)) ->
  w_fs w !! ts_folder = Some d ->
  for_each l (fun ts_file =>
    if PyStr.endswith ts_file ".ts"
    then Os.remove (PosixPath.join ts_folder ts_file)
    else mret tt) w
  = Ok tt (Os.set_fs (<[ts_folder := swept l d]> (w_fs w)) w).
Proof.
  intros Ht. revert w d. induction l as [|x l IH]; intros w d Hnd Hl Hd.
  - cbn [for_each swept]. unfold mret, M_ret.
    by rewrite (insert_id (w_fs w)), set_fs_same.
  - apply NoDup_cons in Hnd as [Hx Hnd].
    destruct (Hl x) as (Hsx & c & Hc); [apply list_elem_of_here|].
    destruct (split_join ts_folder x Ht Hsx) as [Edir Ebase].
    cbn [for_each swept]. destruct (PyStr.endswith x ".ts").
    + erewrite bind_Ok;
        [|apply (remove_run _ _ d c); rewrite ?Edir, ?Ebase; done].
      rewrite Edir, Ebase. erewrite IH.
      * by rewrite set_fs_fs, set_fs_set_fs, insert_insert_eq.
      * done.
      * intros name Hin.
        destruct (Hl name) as (Hs & c' & Hc'); [by apply list_elem_of_further|].
        split; [done|]. exists c'. rewrite lookup_delete_ne; [done|].
        intros ->. done.
      * rewrite set_fs_fs. apply lookup_insert_eq.
    + erewrite bind_Ok; [|reflexivity]. apply IH; [done| |done].
      intros name Hin. apply Hl. by apply list_elem_of_further.
Qed.

(** C7: in a flat directory, [cleanup_ts_files] removes the entries whose
    name ends with [.ts] and no other; the other directories are as they
    were. *)
Theorem cleanup_ts_files_removes_ts
    (ts_folder : string) (w : world) (d : gmap string node) :
  ts_folder <> EmptyString ->
  tidy ts_folder ->
  w_fs w !! ts_folder = Some d ->
  flat d ->
  exists d' : gmap string node,
    cleanup_ts_files ts_folder w
    = Ok tt {| w_fs := <[ts_folder := d']> (w_fs w);
               w_log := w_log w ++ [EPrint "All .ts files have been deleted."] |}
    /\ forall name : string,
         d' !! name = if PyStr.endswith name ".ts" then None else d !! name.
Proof.
  intros Hne Ht Hd Hflat. exists (swept (map_to_list d).*1 d). split.
  - unfold cleanup_ts_files.
    erewrite bind_Ok; cycle 1.
    { unfold Os.listdir. destruct (String.eqb_spec ts_folder ""); [done|].
      rewrite Hd. reflexivity. }
    erewrite bind_Ok; cycle 1.
    { apply (cleanup_loop ts_folder _ w d); [done| | |done].
      - apply NoDup_fst_map_to_list.
      - intros name [[n e] [-> Hin]]%list_elem_of_fmap.
        apply elem_of_map_to_list in Hin. destruct (Hflat _ _ Hin) as [He Hs].
        split; [done|]. destruct e as [c|]; [by exists c|done]. }
    reflexivity.
  - intros name. rewrite swept_lookup.
    destruct (PyStr.endswith name ".ts"); [|by rewrite andb_false_r].
    rewrite andb_true_r. case_bool_decide as Hin; [done|].
    destruct (d !! name) as [e|] eqn:E; [|done].
    exfalso. apply Hin. apply list_elem_of_fmap. exists (name, e).
    split; [done|]. by apply elem_of_map_to_list.
Qed.

(** ** The name of a segment file *)

Lemma numeric_harmless c :
  numeric c = true ->
  kept c = true /\ PyStr.isspace c = false /\ PosixPath.is_sep c = false.
Proof.
  destruct c as [[] [] [] [] [] [] [] []]; vm_compute; intros H;
    try discriminate H; repeat split.
Qed.

Lemma all_numeric_uint d : PyStr.all numeric (NilEmpty.string_of_uint d) = true.
Proof. induction d; simpl; try done; exact IHd. Qed.

Lemma all_numeric_digits n : PyStr.all numeric (PyStr.digits n) = true.
Proof.
  unfold PyStr.digits, NilZero.string_of_uint.
  destruct (N.to_uint n) eqn:E; try done;
    rewrite <- E; apply all_numeric_uint.
Qed.

Lemma all_numeric_zeros k : PyStr.all numeric (PyStr.zeros k) = true.
Proof. induction k as [|k IH]; [done|exact IH]. Qed.

Lemma all_numeric_format_06d i : PyStr.all numeric (PyStr.format_06d i) = true.
Proof.
  unfold PyStr.format_06d. destruct (i <? 0).
  - cbn [PyStr.all]. rewrite all_app, all_numeric_zeros, all_numeric_digits.
    done.
  - by rewrite all_app, all_numeric_zeros, all_numeric_digits.
Qed.

Lemma all_impl (q r : ascii -> bool) s :
  (forall c, q c = true -> r c = true) ->
  PyStr.all q s = true -> PyStr.all r s = true.
Proof.
  intros Hqr. induction s as [|c s IH]; [done|]. simpl.
  intros [Hc Hs]%andb_prop. by rewrite (Hqr c Hc), IH.
Qed.

Lemma last_is_app_nonempty q (a b : string) :
  b <> EmptyString -> PyStr.last_is q (a +:+ b) = PyStr.last_is q b.
Proof.
  intros Hb. induction a as [|c a IH]; [done|].
  rewrite app_String. cbn [PyStr.last_is].
  destruct (a +:+ b) eqn:E; [|exact IH].
  destruct a; [by rewrite app_empty in E|by rewrite app_String in E].
Qed.

(** A segment name: a formatted number and the extension. *)
Lemma sanitize_segment_name s :
  PyStr.all numeric s = true ->
  sanitize_filename (s +:+ ".ts") = s +:+ ".ts"
  /\ sep_free (s +:+ ".ts") = true
  /\ s +:+ ".ts" <> EmptyString.
Proof.
  intros Hs. split; [|split].
  - unfold sanitize_filename. fold kept. rewrite join_if_all.
    + unfold PyStr.strip. rewrite rstrip_if_last.
      * apply lstrip_if_first. destruct s as [|c s]; [done|].
        rewrite app_String. simpl in Hs |- *.
        apply andb_prop in Hs as [Hc _]. by apply numeric_harmless in Hc as (_&?&_).
      * by rewrite last_is_app_nonempty.
    + rewrite all_app. rewrite (all_impl numeric kept s); [done| |done].
      intros c Hc. by apply numeric_harmless in Hc as (?&_&_).
  - unfold sep_free. rewrite all_app.
    rewrite (all_impl numeric _ s); [done| |done].
    intros c Hc. apply numeric_harmless in Hc as (_&_&->). done.
  - destruct s; [done|by rewrite app_String].
Qed.

Lemma sanitize_format_06d i :
  sanitize_filename (PyStr.format_06d i +:+ ".ts") = PyStr.format_06d i +:+ ".ts".
Proof. apply sanitize_segment_name, all_numeric_format_06d. Qed.

(** ** One attempt, one segment *)

Lemma sleeps_app l1 l2 : sleeps (l1 ++ l2) = sleeps l1 ++ sleeps l2.
Proof. apply omap_app. Qed.

Lemma ready_log tf fs log log' : ready tf (World fs log) -> ready tf (World fs log').
Proof. done. Qed.

Lemma save_run tf name (body : list string) w :
  tidy tf -> sep_free name = true -> name <> EmptyString -> ready tf w ->
  exists w',
    (Os.open_w (PosixPath.join tf name) ;;
     for_each body (Os.write (PosixPath.join tf name))) w = Ok tt w'
    /\ ready tf w' /\ w_log w' = w_log w.
Proof.
  intros Ht Hn Hne (d & Hd & Hflat).
  destruct (split_join tf name Ht Hn) as [Edir Ebase].
  erewrite bind_Ok;
    [|apply (open_w_run _ _ d); rewrite ?Edir, ?Ebase; done].
  erewrite (for_each_write (fun x => x) body _ _ _ "");
    [|rewrite set_fs_fs; apply lookup_insert_eq|apply lookup_insert_eq].
  eexists. split; [reflexivity|]. split; [|done].
  rewrite Edir, Ebase. eexists. split; [apply lookup_insert_eq|].
  intros name'. rewrite insert_insert_eq, lookup_insert.
  case_decide; [done|apply Hflat].
Qed.

Lemma attempt_once_run srv tf url retries attempt st w :
  tidy tf -> ready tf w ->
  exists w',
    attempt_once srv tf url (PyStr.format_06d (segment_number st)) retries attempt st w
    = Ok (if delivers (srv (segment_number st) attempt)
          then Some (downloaded tf st) else None) w'
    /\ ready tf w' /\ sleeps (w_log w') = sleeps (w_log w).
Proof.
  intros Ht Hr. unfold attempt_once, except_request, requests_get.
  rewrite sanitize_format_06d. fold (segment_file tf (segment_number st)).
  destruct (sanitize_segment_name _ (all_numeric_format_06d (segment_number st)))
    as (_ & Hsf & Hne).
  destruct (srv (segment_number st) attempt) as [r|msg] eqn:Hsrv.
  - unfold delivers. destruct (status_code r =? 200) eqn:Hcode.
    + destruct (save_run tf _ (chunks r)
                  (World (w_fs w) ((w_log w ++ [EPrint
                     ("Downloading " +:+ url +:+ " (Attempt "
                      +:+ PyStr.str_of_int (attempt + 1) +:+ "/"
                      +:+ PyStr.str_of_int retries +:+ ")...")]) ++ [EGet url 10]))
                  Ht Hsf Hne) as (w1 & Hsave & Hr1 & Hlog1); [done|].
      unfold mbind, M_bind in Hsave |- *.
      unfold Os.print, Os.emit, raise, mret, M_ret, write_content.
      cbn [w_fs w_log]. rewrite Hcode. unfold segment_file.
      unfold mbind, M_bind.
      destruct (Os.open_w _ _) as [[] w2| |] eqn:Hopen; try discriminate Hsave.
      rewrite Hsave. destruct (cut_short r) as [msg|]; cbn [andb bool_decide].
      * rewrite bool_decide_eq_false_2 by done.
        eexists. split; [reflexivity|]. split; [by destruct w1|].
        cbn [w_log] in *. rewrite Hlog1, !sleeps_app. simpl. by rewrite !app_nil_r.
      * rewrite bool_decide_eq_true_2 by done.
        eexists. split; [reflexivity|]. split; [by destruct w1|].
        cbn [w_log] in *. rewrite Hlog1, !sleeps_app. simpl. by rewrite !app_nil_r.
    + unfold mbind, M_bind, Os.print, Os.emit, raise, mret, M_ret.
      cbn [w_fs w_log andb]. rewrite Hcode.
      eexists. split; [reflexivity|]. split; [by destruct w|].
      cbn [w_log]. rewrite !sleeps_app. simpl. by rewrite !app_nil_r.
  - unfold mbind, M_bind, Os.print, Os.emit, raise, mret, M_ret.
    cbn [w_fs w_log delivers].
    eexists. split; [reflexivity|]. split; [by destruct w|].
    cbn [w_log]. rewrite !sleeps_app. simpl. by rewrite !app_nil_r.
Qed.

Lemma sleep_run d w :
  0 <= d -> Os.sleep d w = Ok tt (World (w_fs w) (w_log w ++ [ESleep d])).
Proof.
  intros Hd. unfold Os.sleep. destruct (d <? 0) eqn:E; [lia|done].
Qed.

Lemma retry_loop_run srv tf url retries backoff attempts st w :
  tidy tf -> ready tf w -> 0 <= backoff -> Forall (fun a => 0 <= a) attempts ->
  exists w',
    retry_loop srv tf url (PyStr.format_06d (segment_number st)) retries backoff
      attempts st w
    = Ok (if existsb (fun a => delivers (srv (segment_number st) a)) attempts
          then (true, downloaded tf st) else (false, st)) w'
    /\ ready tf w'
    /\ sleeps (w_log w')
       = sleeps (w_log w)
         ++ map (fun a => backoff * (a + 1))
              (List.filter (fun a => a <? retries - 1)
                 (failed_first srv (segment_number st) attempts)).
Proof.
  intros Ht Hr Hb Hpos. revert w Hr.
  induction attempts as [|a rest IH]; intros w Hr.
  - exists w. cbn. by rewrite app_nil_r.
  - apply Forall_cons in Hpos as [Ha Hrest].
    destruct (attempt_once_run srv tf url retries a st w Ht Hr)
      as (w1 & Hrun & Hr1 & Hs1).
    cbn [retry_loop existsb failed_first].
    erewrite bind_Ok by exact Hrun.
    destruct (delivers (srv (segment_number st) a)); cbn [orb].
    + exists w1. cbn. by rewrite app_nil_r.
    + cbn [List.filter]. destruct (a <? retries - 1) eqn:Hlt.
      * erewrite bind_Ok by (apply sleep_run; nia).
        destruct (IH Hrest (World (w_fs w1) (w_log w1 ++ [ESleep (backoff * (a + 1))])))
          as (w2 & Hrun2 & Hr2 & Hs2); [by destruct w1|].
        exists w2. split; [exact Hrun2|]. split; [exact Hr2|].
        rewrite Hs2. cbn [w_log]. rewrite sleeps_app, Hs1. cbn.
        by rewrite <- app_assoc.
      * erewrite bind_Ok by reflexivity.
        destruct (IH Hrest w1 Hr1) as (w2 & Hrun2 & Hr2 & Hs2).
        exists w2. split; [exact Hrun2|]. split; [exact Hr2|].
        by rewrite Hs2, Hs1.
Qed.

Lemma range_nonneg n : Forall (fun a => 0 <= a) (range n).
Proof.
  unfold range. apply Forall_forall. intros a Ha.
  apply list_elem_of_In, in_map_iff in Ha as (k & <- & _). lia.
Qed.

Lemma in_range n a : In a (range n) <-> 0 <= a < n.
Proof.
  unfold range. rewrite in_map_iff. split.
  - intros (k & <- & Hk). apply in_seq in Hk. lia.
  - intros Ha. exists (Z.to_nat a). split; [lia|]. apply in_seq. lia.
Qed.

Lemma succeeds_true srv retries seg :
  succeeds srv retries seg = true
  <-> exists a, 0 <= a < retries /\ delivers (srv seg a) = true.
Proof.
  unfold succeeds. rewrite existsb_exists. split.
  - intros (a & Ha & Hd). exists a. by apply in_range in Ha.
  - intros (a & Ha & Hd). exists a. by apply in_range in Ha.
Qed.

Lemma succeeds_false srv retries seg :
  succeeds srv retries seg = false
  <-> forall a, 0 <= a < retries -> delivers (srv seg a) = false.
Proof.
  split.
  - intros H a Ha. destruct (delivers (srv seg a)) eqn:E; [|done].
    assert (succeeds srv retries seg = true) by (apply succeeds_true; eauto).
    congruence.
  - intros H. destruct (succeeds srv retries seg) eqn:E; [|done].
    apply succeeds_true in E as (a & Ha & Hd). rewrite H in Hd; done.
Qed.

(** ** One turn of the loop *)

Lemma fetch_step_run srv base_url tf retries backoff st w :
  tidy tf -> ready tf w -> 0 <= backoff ->
  exists w',
    fetch_step srv base_url tf retries backoff st w
    = Ok (after_segment srv tf retries st) w'
    /\ ready tf w'.
Proof.
  intros Ht Hr Hb. unfold fetch_step, after_segment.
  destruct (retry_loop_run srv tf
              (PyStr.replace base_url "-000000.ts"
                 ("-" +:+ PyStr.format_06d (segment_number st) +:+ ".ts"))
              retries backoff (range retries) st w Ht Hr Hb (range_nonneg _))
    as (w1 & Hrun & Hr1 & _).
  erewrite bind_Ok by exact Hrun. fold (succeeds srv retries (segment_number st)).
  destruct (succeeds srv retries (segment_number st)); cbn [negb].
  - exists w1. done.
  - erewrite bind_Ok by reflexivity. cbn [failed_attempts].
    destruct (failed_attempts st + 1 >=? 5).
    + erewrite bind_Ok by reflexivity. eexists. split; [reflexivity|].
      by destruct w1.
    + eexists. split; [reflexivity|]. by destruct w1.
Qed.

Lemma fetch_loop_run srv base_url tf retries backoff fuel st st' w :
  tidy tf -> ready tf w -> 0 <= backoff ->
  loop_end fuel srv tf retries st = Some st' ->
  exists w',
    fetch_loop fuel srv base_url tf retries backoff st w = Ok st' w'
    /\ ready tf w'.
Proof.
  intros Ht Hr Hb. revert st w Hr. induction fuel as [|fuel IH]; intros st w Hr;
    [done|].
  cbn [loop_end fetch_loop]. intros Hend.
  destruct (fetch_step_run srv base_url tf retries backoff st w Ht Hr Hb)
    as (w1 & Hrun & Hr1).
  erewrite bind_Ok by exact Hrun.
  destruct (after_segment srv tf retries st) as [[] st1].
  - injection Hend as <-. by exists w1.
  - by apply IH.
Qed.

Lemma loop_end_more fuel fuel' srv tf retries st st' :
  loop_end fuel srv tf retries st = Some st' -> (fuel <= fuel')%nat ->
  loop_end fuel' srv tf retries st = Some st'.
Proof.
  revert fuel' st. induction fuel as [|fuel IH]; intros fuel' st; [done|].
  intros H Hle. destruct fuel' as [|fuel']; [lia|].
  cbn [loop_end] in *. destruct (after_segment srv tf retries st) as [[] st1];
    [done|]. apply IH; [done|lia].
Qed.

Lemma makedirs_ready tf w :
  usable tf w ->
  exists w', Os.makedirs tf w = Ok tt w' /\ ready tf w' /\ w_log w' = w_log w.
Proof.
  intros [Hne Hd]. unfold Os.makedirs.
  destruct (String.eqb_spec tf ""); [done|].
  destruct (w_fs w !! tf) as [d|] eqn:E.
  - exists w. split; [done|]. split; [|done]. by exists d.
  - eexists. split; [reflexivity|]. split; [|done].
    exists ∅. split; [apply lookup_insert_eq|]. intros name.
    by rewrite lookup_empty.
Qed.

Lemma download_run_end srv base_url tf retries backoff fuel st' w :
  tidy tf -> usable tf w -> 0 <= backoff ->
  loop_end fuel srv tf retries fetch_start = Some st' ->
  exists w',
    download_run fuel srv base_url tf retries backoff w = Ok st' w'
    /\ download_ts_segments fuel srv base_url tf retries backoff w
       = Ok (ts_files st') w'.
Proof.
  intros Ht Hu Hb Hend.
  destruct (makedirs_ready tf w Hu) as (w1 & Hmk & Hr1 & _).
  destruct (fetch_loop_run srv base_url tf retries backoff fuel fetch_start st'
              (World (w_fs w1) (w_log w1 ++ [EPrint "Starting download..."]))
              Ht) as (w2 & Hloop & _); [by destruct w1|done|done|].
  assert (download_run fuel srv base_url tf retries backoff w = Ok st' w2) as Hrun.
  { unfold download_run. erewrite bind_Ok by exact Hmk.
    erewrite bind_Ok by reflexivity. exact Hloop. }
  exists w2. split; [exact Hrun|].
  unfold download_ts_segments. by erewrite bind_Ok by exact Hrun.
Qed.

(** ** The backoff *)

Lemma failed_first_seq srv seg k n :
  exists j, (j <= n)%nat /\
    failed_first srv seg (map Z.of_nat (seq k n)) = map Z.of_nat (seq k j).
Proof.
  revert k. induction n as [|n IH]; intros k.
  - exists O. done.
  - cbn [seq map failed_first]. destruct (delivers (srv seg (Z.of_nat k))).
    + exists O. split; [lia|done].
    + destruct (IH (S k)) as (j & Hj & ->). exists (S j). split; [lia|done].
Qed.

Lemma filter_below_seq (r : Z) (j : nat) :
  List.filter (fun a => a <? r) (map Z.of_nat (seq 0 j))
  = map Z.of_nat (seq 0 (Nat.min j (Z.to_nat r))).
Proof.
  induction j as [|j IH]; [done|].
  rewrite seq_S, map_app, List.filter_app, IH. cbn [map List.filter Nat.add].
  destruct (Z.of_nat j <? r) eqn:E.
  - apply Z.ltb_lt in E.
    replace (Nat.min (S j) (Z.to_nat r)) with (S (Nat.min j (Z.to_nat r))) by lia.
    rewrite seq_S, map_app. cbn [map Nat.add].
    by replace (Nat.min j (Z.to_nat r)) with j by lia.
  - apply Z.ltb_ge in E. rewrite app_nil_r.
    by replace (Nat.min (S j) (Z.to_nat r)) with (Nat.min j (Z.to_nat r)) by lia.
Qed.

Lemma backoff_seq (backoff : Z) (m : nat) :
  map (fun a => backoff * (a + 1)) (map Z.of_nat (seq 0 m))
  = map (fun k => backoff * Z.of_nat k) (seq 1 m).
Proof.
  rewrite <- seq_shift, !map_map. apply map_ext. intros k. f_equal. lia.
Qed.

(** With a negative backoff [time.sleep] refuses its argument: the loop
    ends on the first sleep it asks for, and none is performed. *)
Lemma retry_loop_run_negative srv tf url retries backoff attempts st w :
  tidy tf -> ready tf w -> backoff < 0 -> Forall (fun a => 0 <= a) attempts ->
  exists w',
    ((exists r, retry_loop srv tf url (PyStr.format_06d (segment_number st))
                  retries backoff attempts st w = Ok r w')
     \/ (exists e, retry_loop srv tf url (PyStr.format_06d (segment_number st))
                     retries backoff attempts st w = Raise e w'))
    /\ sleeps (w_log w') = sleeps (w_log w).
Proof.
  intros Ht Hr Hb Hpos. revert w Hr.
  induction attempts as [|a rest IH]; intros w Hr.
  - exists w. split; [|done]. left. by eexists.
  - apply Forall_cons in Hpos as [Ha Hrest].
    destruct (attempt_once_run srv tf url retries a st w Ht Hr)
      as (w1 & Hrun & Hr1 & Hs1).
    cbn [retry_loop]. erewrite bind_Ok by exact Hrun.
    destruct (delivers (srv (segment_number st) a)).
    + exists w1. split; [|done]. left. by eexists.
    + destruct (a <? retries - 1).
      * exists w1. split; [|done]. right. eexists.
        apply bind_Raise. unfold Os.sleep.
        destruct (backoff * (a + 1) <? 0) eqn:E; [reflexivity|nia].
      * erewrite bind_Ok by reflexivity.
        destruct (IH Hrest w1 Hr1) as (w2 & Hrun2 & Hs2).
        exists w2. split; [exact Hrun2|]. by rewrite Hs2.
Qed.

(** C6: in the retry loop of one segment the sleeps are [backoff * 1],
    [backoff * 2], ... in this order, one after each failed attempt but
    the last of the [retries]: as many as there are failed attempts, and at
    most [retries - 1].  This for a backoff that is not negative, with
    which the loop runs to its end; a negative one is refused by
    [time.sleep] and no sleep is performed at all. *)
Theorem backoff_is_linear (srv : oracle) (base_url temp_folder : string)
    (retries backoff : Z) (st : fetch_state) (w : world) :
  tidy temp_folder -> ready temp_folder w ->
  let run :=
    retry_loop srv temp_folder (segment_url base_url (segment_number st))
      (PyStr.format_06d (segment_number st)) retries backoff (range retries) st w in
  sleeps (w_log (world_of run w))
  = sleeps (w_log w)
    ++ (if backoff <? 0 then []
        else map (fun k => backoff * Z.of_nat k)
               (seq 1 (Nat.min
                         (length (failed_first srv (segment_number st) (range retries)))
                         (Z.to_nat retries - 1))))
  /\ (0 <= backoff -> exists r w', run = Ok r w').
Proof.
  intros Ht Hr run. destruct (backoff <? 0) eqn:Hb.
  - apply Z.ltb_lt in Hb. split; [|lia]. rewrite app_nil_r.
    destruct (retry_loop_run_negative srv temp_folder
                (segment_url base_url (segment_number st))
                retries backoff (range retries) st w Ht Hr Hb (range_nonneg _))
      as (w' & [[r Hrun]|[e Hrun]] & Hs); fold run in Hrun; by rewrite Hrun.
  - apply Z.ltb_ge in Hb.
    destruct (retry_loop_run srv temp_folder (segment_url base_url (segment_number st))
                retries backoff (range retries) st w Ht Hr Hb (range_nonneg _))
      as (w' & Hrun & _ & Hs).
    fold run in Hrun. split; [|intros _; eexists; exists w'; exact Hrun].
    rewrite Hrun. cbn [world_of]. rewrite Hs. f_equal. unfold range.
    destruct (failed_first_seq srv (segment_number st) 0 (Z.to_nat retries))
      as (j & Hj & ->).
    rewrite length_map, length_seq, filter_below_seq, backoff_seq.
    do 2 f_equal. lia.
Qed.

(** ** The count of failures *)

Lemma fetch_turns_run srv base_url tf retries backoff n st w :
  tidy tf -> ready tf w -> 0 <= backoff ->
  exists w',
    fetch_turns n srv base_url tf retries backoff st w
    = Ok (after_turns n srv tf retries st) w'
    /\ ready tf w'.
Proof.
  intros Ht Hr Hb. induction n as [|n IH]; [by exists w|].
  destruct IH as (w1 & Hrun & Hr1). cbn [fetch_turns after_turns].
  erewrite bind_Ok by exact Hrun.
  destruct (after_turns n srv tf retries st) as [[] st1]; [by exists w1|].
  by apply fetch_step_run.
Qed.

(** Four turns cannot stop the loop: the count is at most the number of
    turns. *)
Lemma after_turns_early srv tf retries n :
  (n <= 4)%nat ->
  exists st,
    after_turns n srv tf retries fetch_start = (false, st)
    /\ segment_number st = Z.of_nat n
    /\ 0 <= failed_attempts st <= Z.of_nat n.
Proof.
  induction n as [|n IH]; intros Hn.
  - exists fetch_start. done.
  - destruct IH as (st & Hst & Hseg & Hf); [lia|].
    cbn [after_turns]. rewrite Hst. unfold after_segment.
    destruct (succeeds srv retries (segment_number st)).
    + eexists. split; [reflexivity|]. cbn. lia.
    + destruct (failed_attempts st + 1 >=? 5) eqn:E; [lia|].
      eexists. split; [reflexivity|]. cbn. lia.
Qed.

(** C8: with segment 3 failing, segment 4 downloaded and segment 5
    failing, the loop is still running after segment 5: at no turn up to
    there has the count of failures reached 5; it is 0 after segment 4 and
    1 after segment 5.  In any turn, a downloaded segment leaves the count
    at 0. *)
Theorem failure_count_resets (srv : oracle) (base_url temp_folder : string)
    (retries backoff : Z) (w : world) :
  tidy temp_folder -> ready temp_folder w -> 0 <= backoff ->
  (forall a, 0 <= a < retries -> delivers (srv 3 a) = false) ->
  (exists a, 0 <= a < retries /\ delivers (srv 4 a) = true) ->
  (forall a, 0 <= a < retries -> delivers (srv 5 a) = false) ->
  (forall n : nat, (n <= 6)%nat ->
     exists (st : fetch_state) (w' : world),
       fetch_turns n srv base_url temp_folder retries backoff fetch_start w
       = Ok (false, st) w'
       /\ segment_number st = Z.of_nat n
       /\ 0 <= failed_attempts st < 5
       /\ (n = 5%nat -> failed_attempts st = 0)
       /\ (n = 6%nat -> failed_attempts st = 1))
  /\ (forall (st : fetch_state) (w0 : world),
        ready temp_folder w0 ->
        succeeds srv retries (segment_number st) = true ->
        exists (st' : fetch_state) (w' : world),
          fetch_step srv base_url temp_folder retries backoff st w0
          = Ok (false, st') w'
          /\ failed_attempts st' = 0).
Proof.
  intros Ht Hr Hb H3 H4 H5.
  apply succeeds_false in H3. apply succeeds_true in H4.
  apply succeeds_false in H5. split.
  - assert (exists st, after_turns 5 srv temp_folder retries fetch_start = (false, st)
                       /\ segment_number st = 5 /\ failed_attempts st = 0)
      as (st5 & Hst5 & Hseg5 & Hf5).
    { destruct (after_turns_early srv temp_folder retries 4) as (st & Hst & Hseg & _);
        [lia|].
      cbn [after_turns] in *. rewrite Hst. unfold after_segment.
      rewrite Hseg. change (Z.of_nat 4) with 4. rewrite H4.
      eexists. split; [reflexivity|]. cbn. lia. }
    assert (exists st, after_turns 6 srv temp_folder retries fetch_start = (false, st)
                       /\ segment_number st = 6 /\ failed_attempts st = 1)
      as (st6 & Hst6 & Hseg6 & Hf6).
    { cbn [after_turns] in *. rewrite Hst5. unfold after_segment.
      rewrite Hseg5, H5, Hf5. eexists. split; [reflexivity|]. cbn. lia. }
    intros n Hn.
    destruct (fetch_turns_run srv base_url temp_folder retries backoff n
                fetch_start w Ht Hr Hb) as (w' & Hrun & _).
    destruct (decide (n <= 4)%nat) as [Hle|Hgt].
    + destruct (after_turns_early srv temp_folder retries n Hle)
        as (st & Hst & Hseg & Hf).
      exists st, w'. rewrite Hrun, Hst. repeat split; try done; lia.
    + destruct (decide (n = 5%nat)) as [->|Hne].
      * exists st5, w'. rewrite Hrun, Hst5. repeat split; try done; lia.
      * assert (n = 6%nat) as -> by lia.
        exists st6, w'. rewrite Hrun, Hst6. repeat split; try done; lia.
  - intros st w0 Hr0 Hok.
    destruct (fetch_step_run srv base_url temp_folder retries backoff st w0 Ht Hr0 Hb)
      as (w' & Hrun & _).
    unfold after_segment in Hrun. rewrite Hok in Hrun.
    eexists. exists w'. split; [exact Hrun|done].
Qed.

(** ** Five failures in a row *)

Lemma after_segment_ok srv tf retries seg failed files :
  succeeds srv retries seg = true ->
  after_segment srv tf retries (FetchState seg failed files)
  = (false, FetchState (seg + 1) 0 (files ++ [segment_file tf seg])).
Proof. unfold after_segment. cbn. by intros ->. Qed.

Lemma after_segment_ko srv tf retries seg failed files :
  succeeds srv retries seg = false -> failed + 1 < 5 ->
  after_segment srv tf retries (FetchState seg failed files)
  = (false, FetchState (seg + 1) (failed + 1) files).
Proof.
  unfold after_segment. cbn [segment_number failed_attempts ts_files].
  intros -> H. destruct (failed + 1 >=? 5) eqn:E; [lia|done].
Qed.

Lemma after_segment_stop srv tf retries seg failed files :
  succeeds srv retries seg = false -> 5 <= failed + 1 ->
  after_segment srv tf retries (FetchState seg failed files)
  = (true, FetchState seg (failed + 1) files).
Proof.
  unfold after_segment. cbn [segment_number failed_attempts ts_files].
  intros -> H. destruct (failed + 1 >=? 5) eqn:E; [done|lia].
Qed.


(** C1: when segments 0, 1 and 2 are each downloaded within the retries
    and segments 3 to 7 each fail them all, the loop stops in its turn for
    segment 7, the count of failures being 5, and the function returns the
    paths of segments 0, 1 and 2 in this order. *)
Theorem download_stops_after_five_failures (srv : oracle)
    (base_url temp_folder : string) (retries backoff : Z) (fuel : nat) (w : world) :
  tidy temp_folder -> usable temp_folder w -> 0 <= backoff ->
  (forall seg, 0 <= seg <= 2 ->
     exists a, 0 <= a < retries /\ delivers (srv seg a) = true) ->
  (forall seg, 3 <= seg <= 7 ->
     forall a, 0 <= a < retries -> delivers (srv seg a) = false) ->
  (8 <= fuel)%nat ->
  exists w' : world,
    download_run fuel srv base_url temp_folder retries backoff w
    = Ok {| segment_number := 7;
            failed_attempts := 5;
            ts_files := [PosixPath.join temp_folder "000000.ts";
                         PosixPath.join temp_folder "000001.ts";
                         PosixPath.join temp_folder "000002.ts"] |} w'
    /\ download_ts_segments fuel srv base_url temp_folder retries backoff w
       = Ok [PosixPath.join temp_folder "000000.ts";
             PosixPath.join temp_folder "000001.ts";
             PosixPath.join temp_folder "000002.ts"] w'.
Proof.
  intros Ht Hu Hb Hok Hko Hfuel.
  apply (download_run_end srv base_url temp_folder retries backoff fuel
           {| segment_number := 7; failed_attempts := 5;
              ts_files := [PosixPath.join temp_folder "000000.ts";
                           PosixPath.join temp_folder "000001.ts";
                           PosixPath.join temp_folder "000002.ts"] |} w Ht Hu Hb).
  apply (loop_end_more 8); [|exact Hfuel].
  assert (forall seg, 0 <= seg <= 2 -> succeeds srv retries seg = true) as Hs.
  { intros seg Hseg. apply succeeds_true. by apply Hok. }
  assert (forall seg, 3 <= seg <= 7 -> succeeds srv retries seg = false) as Hf.
  { intros seg Hseg. apply succeeds_false. by apply Hko. }
  unfold fetch_start.
  do 3 (cbn [loop_end]; rewrite after_segment_ok by (apply Hs; lia)).
  do 4 (cbn [loop_end]; rewrite after_segment_ko by (try apply Hf; lia)).
  cbn [loop_end]. rewrite after_segment_stop by (try apply Hf; lia).
  reflexivity.
Qed.

(** ** The paths returned *)

Lemma attempt_once_shape srv tf url retries attempt st w st' w' :
  attempt_once srv tf url (PyStr.format_06d (segment_number st)) retries attempt st w
  = Ok (Some st') w' ->
  st' = downloaded tf st.
Proof.
  unfold attempt_once, except_request, requests_get, write_content.
  rewrite sanitize_format_06d. fold (segment_file tf (segment_number st)).
  unfold mbind, M_bind, Os.print, Os.emit, raise, mret, M_ret.
  cbn [w_fs w_log]. intros H.
  repeat case_match; simplify_eq; reflexivity.
Qed.

Lemma retry_loop_shape srv tf url retries backoff attempts st w b st' w' :
  retry_loop srv tf url (PyStr.format_06d (segment_number st)) retries backoff
    attempts st w = Ok (b, st') w' ->
  (b = false /\ st' = st) \/ (b = true /\ st' = downloaded tf st).
Proof.
  revert w. induction attempts as [|a rest IH]; intros w.
  - cbn. intros [= <- <- <-]. by left.
  - cbn [retry_loop]. unfold mbind, M_bind.
    destruct (attempt_once _ _ _ _ _ _ _ _) as [[x|] w1|e w1|] eqn:Hatt;
      [| |done|done].
    + intros [= <- <- <-]. right. split; [done|].
      by apply attempt_once_shape in Hatt.
    + destruct (a <? retries - 1).
      * destruct (Os.sleep _ w1) as [[] w2|e w2|]; [|done|done]. apply IH.
      * apply IH.
Qed.

(** What a turn that ends well may do to the loop variables. *)
Lemma fetch_step_shape srv base_url tf retries backoff st w stop st' w' :
  fetch_step srv base_url tf retries backoff st w = Ok (stop, st') w' ->
  (stop = false
   /\ segment_number st' = segment_number st + 1
   /\ (ts_files st' = ts_files st
       \/ ts_files st' = ts_files st ++ [segment_file tf (segment_number st)]))
  \/ (stop = true
      /\ segment_number st' = segment_number st
      /\ ts_files st' = ts_files st).
Proof.
  unfold fetch_step. unfold mbind at 1. unfold M_bind at 1.
  destruct (retry_loop _ _ _ _ _ _ _ _ _) as [[b st1] w1|e w1|] eqn:Hloop;
    [|done|done].
  apply retry_loop_shape in Hloop as [[-> ->]|[-> ->]]; cbn [negb].
  - unfold mbind, M_bind, Os.print, Os.emit, mret, M_ret.
    cbn [failed_attempts segment_number ts_files].
    destruct (failed_attempts st + 1 >=? 5); intros [= <- <- <-]; cbn.
    + right. done.
    + left. auto.
  - unfold mret, M_ret. intros [= <- <- <-]. cbn. left. auto.
Qed.

Lemma listed_step srv base_url tf retries backoff st w stop st' w' :
  0 <= segment_number st ->
  fetch_step srv base_url tf retries backoff st w = Ok (stop, st') w' ->
  listed tf st -> listed tf st' /\ 0 <= segment_number st'.
Proof.
  intros Hseg Hstep (idxs & Hfiles & Hsorted & Hbound).
  apply fetch_step_shape in Hstep as [(-> & Hn & [Hf|Hf])|(-> & Hn & Hf)].
  - split; [|lia]. exists idxs. rewrite Hf, Hn. split; [done|]. split; [done|].
    eapply Forall_impl; [exact Hbound|]. simpl. lia.
  - split; [|lia]. exists (idxs ++ [segment_number st]).
    rewrite Hf, Hn, Hfiles, map_app. split; [done|]. split.
    + apply StronglySorted_app. split; [|split; [done|repeat constructor]].
      intros x1 x2 Hx1 ->%list_elem_of_singleton.
      rewrite Forall_forall in Hbound. apply Hbound in Hx1. lia.
    + apply Forall_app. split.
      * eapply Forall_impl; [exact Hbound|]. simpl. lia.
      * repeat constructor; lia.
  - split; [|lia]. exists idxs. by rewrite Hf, Hn.
Qed.

Lemma listed_loop srv base_url tf retries backoff fuel st w st' w' :
  0 <= segment_number st ->
  fetch_loop fuel srv base_url tf retries backoff st w = Ok st' w' ->
  listed tf st -> listed tf st'.
Proof.
  revert st w. induction fuel as [|fuel IH]; intros st w Hseg; [done|].
  cbn [fetch_loop]. unfold mbind at 1. unfold M_bind at 1.
  destruct (fetch_step _ _ _ _ _ _ _) as [[stop st1] w1|e w1|] eqn:Hstep;
    [|done|done].
  intros Hloop Hl.
  destruct (listed_step _ _ _ _ _ _ _ _ _ _ Hseg Hstep Hl) as [Hl1 Hseg1].
  destruct stop.
  - unfold mret, M_ret in Hloop. by injection Hloop as <- <-.
  - by apply (IH st1 w1).
Qed.

Lemma strictly_sorted_NoDup (l : list Z) : StronglySorted Z.lt l -> NoDup l.
Proof.
  induction 1 as [|x l Hl IH Hx]; [constructor|].
  constructor; [|done]. intros Hin. rewrite Forall_forall in Hx.
  apply Hx in Hin. lia.
Qed.

(** C10: the list [download_ts_segments] returns is made of the paths of
    segments with increasing numbers: each path is the working directory
    joined with the six-digit number and [.ts], a name sanitising leaves
    as it is; the numbers increase strictly along the list, so none comes
    twice. *)
Theorem returned_paths_are_segments (fuel : nat) (srv : oracle)
    (base_url temp_folder : string) (retries backoff : Z) (w w' : world)
    (files : list string) :
  download_ts_segments fuel srv base_url temp_folder retries backoff w
  = Ok files w' ->
  exists idxs : list Z,
    files = map (fun i => PosixPath.join temp_folder (PyStr.format_06d i +:+ ".ts"))
              idxs
    /\ Forall (fun i =>
         0 <= i
         /\ sanitize_filename (PyStr.format_06d i +:+ ".ts")
            = PyStr.format_06d i +:+ ".ts") idxs
    /\ StronglySorted Z.lt idxs
    /\ NoDup idxs.
Proof.
  unfold download_ts_segments, download_run, mbind, M_bind.
  destruct (Os.makedirs temp_folder w) as [[] w1|e w1|]; [|done|done].
  destruct (Os.print _ w1) as [[] w2|e w2|]; [|done|done].
  destruct (fetch_loop _ _ _ _ _ _ _ w2) as [st w3|e w3|] eqn:Hloop;
    [|done|done].
  unfold mret, M_ret. intros [= <- <-].
  apply listed_loop in Hloop as (idxs & Hfiles & Hsorted & Hbound).
  - exists idxs. split; [exact Hfiles|]. split; [|split].
    + eapply Forall_impl; [exact Hbound|]. simpl. intros i Hi.
      split; [lia|apply sanitize_format_06d].
    + exact Hsorted.
    + by apply strictly_sorted_NoDup.
  - done.
  - exists []. repeat split; constructor.
Qed.

(** ** Nothing downloaded *)

(** C5: when [download_ts_segments] returns the empty list, the script
    ends with the message that nothing was downloaded and does nothing
    else: the files are as the fetcher left them, so no list was written
    and nothing removed, and the log gains that one line, so no command
    was run. *)
Theorem main_stops_when_nothing_downloaded (fuel : nat) (srv : oracle)
    (typed_url typed_name : string) (w0 w_in w1 : world)
    (inputs : string * string) :
  read_inputs typed_url typed_name w0 = Ok inputs w_in ->
  download_ts_segments fuel srv inputs.1 "temp_files" 3 2 w_in = Ok [] w1 ->
  main fuel srv typed_url typed_name w0
  = Ok tt {| w_fs := w_fs w1;
             w_log := w_log w1 ++ [EPrint "No .ts files were downloaded."] |}.
Proof.
  intros Hin Hdl. unfold main. erewrite bind_Ok by exact Hin.
  destruct inputs as [base_url name]. cbn [fst] in Hdl.
  erewrite bind_Ok by exact Hdl. reflexivity.
Qed.

(** ** The theorems at work on sample runs *)

Lemma used_world_ready : ready "temp_files" used_world.
Proof.
  exists used_folder. split; [reflexivity|]. intros name. unfold used_folder.
  rewrite !lookup_insert, lookup_empty. repeat case_decide; discriminate.
Defined.

Lemma download_stops_after_five_failures_witness :
  (forall seg, 0 <= seg <= 2 ->
     exists a, 0 <= a < 3 /\ delivers (short_stream seg a) = true)
  /\ (forall seg, 3 <= seg <= 7 ->
        forall a, 0 <= a < 3 -> delivers (short_stream seg a) = false)
  /\ exists w' : world,
       download_run 8 short_stream "https://cdn.example/v/seg-000000.ts"
         "temp_files" 3 2 bare_world
       = Ok {| segment_number := 7;
               failed_attempts := 5;
               ts_files := [PosixPath.join "temp_files" "000000.ts";
                            PosixPath.join "temp_files" "000001.ts";
                            PosixPath.join "temp_files" "000002.ts"] |} w'
       /\ download_ts_segments 8 short_stream "https://cdn.example/v/seg-000000.ts"
            "temp_files" 3 2 bare_world
          = Ok [PosixPath.join "temp_files" "000000.ts";
                PosixPath.join "temp_files" "000001.ts";
                PosixPath.join "temp_files" "000002.ts"] w'.
Proof.
  assert (forall seg, 0 <= seg <= 2 ->
            exists a, 0 <= a < 3 /\ delivers (short_stream seg a) = true) as Hok.
  { intros seg Hseg. exists 1. split; [lia|]. unfold short_stream.
    assert ((0 <=? seg) && (seg <=? 2) = true) as ->
      by (apply andb_true_intro; split; apply Z.leb_le; lia).
    reflexivity. }
  assert (forall seg, 3 <= seg <= 7 ->
            forall a, 0 <= a < 3 -> delivers (short_stream seg a) = false) as Hko.
  { intros seg Hseg a Ha. unfold short_stream.
    assert ((0 <=? seg) && (seg <=? 2) = false) as ->
      by (apply andb_false_intro2, Z.leb_gt; lia).
    reflexivity. }
  split; [exact Hok|]. split; [exact Hko|].
  apply (download_stops_after_five_failures short_stream
           "https://cdn.example/v/seg-000000.ts" "temp_files" 3 2 8 bare_world).
  - reflexivity.
  - split; [discriminate|]. vm_compute. exact I.
  - lia.
  - exact Hok.
  - exact Hko.
  - lia.
Defined.

Lemma create_ffmpeg_file_list_manifest_witness :
  create_ffmpeg_file_list ["temp_files/000000.ts"; "temp_files/000001.ts"]
    "temp_files" used_world
  = Ok (PosixPath.join "temp_files" "file_list.txt")
      {| w_fs := <["temp_files" :=
                    <["file_list.txt" :=
                        NFile (unlines (manifest_lines
                                 ["temp_files/000000.ts"; "temp_files/000001.ts"]))]>
                      used_folder]> (w_fs used_world);
         w_log := w_log used_world
                  ++ [EPrint ("Created FFmpeg file list at "
                              +:+ PosixPath.join "temp_files" "file_list.txt")] |}
  /\ length (manifest_lines ["temp_files/000000.ts"; "temp_files/000001.ts"])
     = length ["temp_files/000000.ts"; "temp_files/000001.ts"]
  /\ Forall (fun ts_file => sep_free (PosixPath.basename ts_file) = true)
       ["temp_files/000000.ts"; "temp_files/000001.ts"].
Proof.
  apply (create_ffmpeg_file_list_manifest
           ["temp_files/000000.ts"; "temp_files/000001.ts"] "temp_files"
           used_world used_folder).
  - reflexivity.
  - reflexivity.
  - vm_compute. discriminate.
Defined.

Lemma main_stops_when_nothing_downloaded_witness :
  main 5 dead_server " https://cdn.example/v/seg-000000.ts " "" bare_world
  = Ok tt
      {| w_fs := w_fs (world_of
                   (download_ts_segments 5 dead_server
                      "https://cdn.example/v/seg-000000.ts" "temp_files" 3 2
                      (world_of (read_inputs " https://cdn.example/v/seg-000000.ts "
                                   "" bare_world) bare_world)) bare_world);
         w_log := w_log (world_of
                    (download_ts_segments 5 dead_server
                       "https://cdn.example/v/seg-000000.ts" "temp_files" 3 2
                       (world_of (read_inputs " https://cdn.example/v/seg-000000.ts "
                                    "" bare_world) bare_world)) bare_world)
                  ++ [EPrint "No .ts files were downloaded."] |}.
Proof.
  apply (main_stops_when_nothing_downloaded 5 dead_server
           " https://cdn.example/v/seg-000000.ts " "" bare_world
           (world_of (read_inputs " https://cdn.example/v/seg-000000.ts " ""
                        bare_world) bare_world)
           _ ("https://cdn.example/v/seg-000000.ts", "")).
  - vm_compute. reflexivity.
  - vm_compute. reflexivity.
Defined.

Lemma backoff_is_linear_witness :
  sleeps (w_log (world_of
            (retry_loop dead_server "temp_files"
               (segment_url "https://cdn.example/v/seg-000000.ts" 0)
               (PyStr.format_06d 0) 3 2 (range 3) fetch_start used_world)
            used_world))
  = [2; 4].
Proof.
  destruct (backoff_is_linear dead_server "https://cdn.example/v/seg-000000.ts"
              "temp_files" 3 2 fetch_start used_world eq_refl used_world_ready)
    as [Hsleeps _].
  exact Hsleeps.
Defined.

Lemma cleanup_ts_files_removes_ts_witness :
  flat used_folder
  /\ exists d' : gmap string node,
       cleanup_ts_files "temp_files" used_world
       = Ok tt {| w_fs := <["temp_files" := d']> (w_fs used_world);
                  w_log := w_log used_world
                           ++ [EPrint "All .ts files have been deleted."] |}
       /\ forall name : string,
            d' !! name
            = if PyStr.endswith name ".ts" then None else used_folder !! name.
Proof.
  assert (flat used_folder) as Hflat.
  { unfold flat, used_folder. repeat apply map_Forall_insert_2;
      try (split; [discriminate|reflexivity]). apply map_Forall_empty. }
  split; [exact Hflat|].
  apply (cleanup_ts_files_removes_ts "temp_files" used_world used_folder).
  - discriminate.
  - reflexivity.
  - reflexivity.
  - exact Hflat.
Defined.

Lemma failure_count_resets_witness :
  exists (st : fetch_state) (w' : world),
    fetch_turns 6 gapped_stream "https://cdn.example/v/seg-000000.ts" "temp_files"
      3 2 fetch_start used_world = Ok (false, st) w'
    /\ segment_number st = 6
    /\ failed_attempts st = 1.
Proof.
  destruct (failure_count_resets gapped_stream "https://cdn.example/v/seg-000000.ts"
              "temp_files" 3 2 used_world) as [Hturns _].
  - reflexivity.
  - exact used_world_ready.
  - lia.
  - intros a _. reflexivity.
  - exists 0. split; [lia|reflexivity].
  - intros a _. reflexivity.
  - destruct (Hturns 6%nat) as (st & w' & Hrun & Hseg & _ & _ & Hf); [lia|].
    exists st, w'. split; [exact Hrun|]. split; [exact Hseg|]. by apply Hf.
Defined.

Lemma returned_paths_are_segments_witness :
  exists idxs : list Z,
    ["temp_files/000000.ts"; "temp_files/000001.ts"; "temp_files/000002.ts"]
    = map (fun i => PosixPath.join "temp_files" (PyStr.format_06d i +:+ ".ts")) idxs
    /\ Forall (fun i =>
         0 <= i
         /\ sanitize_filename (PyStr.format_06d i +:+ ".ts")
            = PyStr.format_06d i +:+ ".ts") idxs
    /\ StronglySorted Z.lt idxs
    /\ NoDup idxs.
Proof.
  apply (returned_paths_are_segments 8 short_stream
           "https://cdn.example/v/seg-000000.ts" "temp_files" 3 2 bare_world
           (world_of (download_ts_segments 8 short_stream
                        "https://cdn.example/v/seg-000000.ts" "temp_files" 3 2
                        bare_world) bare_world)).
  vm_compute. reflexivity.
Defined.

(** * Further properties *)

(** ** What [sanitize_filename] leaves alone, and what it never lets through *)

(** X1: the names [sanitize_filename] returns unchanged are exactly those
    made of kept characters that neither start nor end with whitespace. *)
Theorem sanitize_filename_fixed_points (filename : string) :
  sanitize_filename filename = filename
  <-> PyStr.all kept filename = true
      /\ PyStr.first_is PyStr.isspace filename = false
      /\ PyStr.last_is PyStr.isspace filename = false.
Proof.
  unfold sanitize_filename. fold kept. split.
  - intros E. rewrite <- E. split; [|split].
    + apply all_strip, all_join_if.
    + apply first_is_lstrip_if.
    + apply last_is_lstrip_if, last_is_rstrip_if.
  - intros (Hall & Hfirst & Hlast). rewrite join_if_all by done.
    unfold PyStr.strip. rewrite rstrip_if_last by done.
    by apply lstrip_if_first.
Qed.

Lemma kept_not_sep c : kept c = true -> PosixPath.is_sep c = false.
Proof.
  destruct c as [[] [] [] [] [] [] [] []]; vm_compute; intros H;
    try discriminate H; reflexivity.
Qed.

(** X2: a sanitised name holds no path separator: joined to a folder
    written without trailing separator, it is the last component of the
    path and the folder is its directory. *)
Theorem sanitize_filename_single_component (folder filename : string) :
  tidy folder ->
  sep_free (sanitize_filename filename) = true
  /\ PosixPath.basename (PosixPath.join folder (sanitize_filename filename))
     = sanitize_filename filename
  /\ PosixPath.dirname (PosixPath.join folder (sanitize_filename filename))
     = folder.
Proof.
  intros Ht.
  assert (sep_free (sanitize_filename filename) = true) as Hs.
  { unfold sep_free. apply (all_impl kept).
    - intros c Hc. by rewrite (kept_not_sep c Hc).
    - unfold sanitize_filename. fold kept. apply all_strip, all_join_if. }
  split; [exact Hs|]. destruct (split_join folder _ Ht Hs) as [Hd Hb]. done.
Qed.

(** ** Segment names and URLs *)

Lemma read_digits_zeros k s :
  read_digits (PyStr.zeros k +:+ s) = read_digits s.
Proof.
  induction k as [|k IH]; [done|]. cbn [PyStr.zeros]. rewrite app_String.
  unfold read_digits in *. cbn [NilEmpty.uint_of_string].
  destruct (NilEmpty.uint_of_string (PyStr.zeros k +:+ s)) as [d|];
    destruct (NilEmpty.uint_of_string s) as [d'|]; simpl in *; congruence.
Qed.

Lemma read_digits_digits n : read_digits (PyStr.digits n) = Some n.
Proof.
  unfold read_digits, PyStr.digits, NilZero.string_of_uint.
  destruct (N.to_uint n) eqn:E;
    try (rewrite <- E, NilEmpty.usu; simpl; by rewrite DecimalN.Unsigned.of_to).
  exfalso. destruct n as [|p]; [done|].
  simpl in E. unfold Pos.to_uint in E.
  pose proof (DecimalPos.Unsigned.to_uint_nonnil p) as Hn. by rewrite <- E in Hn.
Qed.

Lemma read_digits_format_06d i :
  0 <= i -> read_digits (PyStr.format_06d i) = Some (Z.to_N i).
Proof.
  intros Hi. unfold PyStr.format_06d. destruct (i <? 0) eqn:E; [lia|].
  rewrite read_digits_zeros, read_digits_digits. f_equal. lia.
Qed.

Lemma length_zeros k : String.length (PyStr.zeros k) = k.
Proof. induction k as [|k IH]; [done|]. simpl. by rewrite IH. Qed.

Lemma all_digit_format_06d i :
  0 <= i -> PyStr.all (PyStr.between 48 57) (PyStr.format_06d i) = true.
Proof.
  intros Hi. unfold PyStr.format_06d. destruct (i <? 0) eqn:E; [lia|].
  rewrite all_app. apply andb_true_intro. split.
  - generalize (6 - String.length (PyStr.digits (Z.abs_N i)))%nat.
    intros k. induction k as [|k IH]; [done|exact IH].
  - unfold PyStr.digits, NilZero.string_of_uint.
    assert (forall d, PyStr.all (PyStr.between 48 57)
                        (NilEmpty.string_of_uint d) = true) as Hd
      by (intros d; induction d; simpl; try done; exact IHd).
    destruct (N.to_uint (Z.abs_N i)) eqn:Ed; try done; rewrite <- Ed; apply Hd.
Qed.

(** X3: the six-digit form keeps the number: it is made of digits, is at
    least six characters long, and reads back as the number it writes. *)
Theorem format_06d_reads_back (i : Z) :
  0 <= i ->
  read_digits (PyStr.format_06d i) = Some (Z.to_N i)
  /\ PyStr.all (PyStr.between 48 57) (PyStr.format_06d i) = true
  /\ (6 <= String.length (PyStr.format_06d i))%nat.
Proof.
  intros Hi. split; [by apply read_digits_format_06d|].
  split; [by apply all_digit_format_06d|].
  unfold PyStr.format_06d. destruct (i <? 0) eqn:E; [lia|].
  rewrite string_app_length, length_zeros. lia.
Qed.

Lemma format_06d_inj i j :
  0 <= i -> 0 <= j -> PyStr.format_06d i = PyStr.format_06d j -> i = j.
Proof.
  intros Hi Hj E.
  pose proof (read_digits_format_06d i Hi) as Ri.
  pose proof (read_digits_format_06d j Hj) as Rj.
  rewrite E, Rj in Ri. injection Ri. lia.
Qed.

(** Digits followed by a period: the digits can be told from what
    follows. *)
Lemma digits_then_dot (a b x y : string) :
  PyStr.all (PyStr.between 48 57) a = true ->
  PyStr.all (PyStr.between 48 57) b = true ->
  a +:+ String "." x = b +:+ String "." y -> a = b /\ x = y.
Proof.
  revert b. induction a as [|c a IH]; intros [|c' b] Ha Hb E.
  - rewrite !app_empty in E. by injection E as ->.
  - rewrite app_empty, app_String in E. injection E as <- _.
    simpl in Hb. discriminate.
  - rewrite app_empty, app_String in E. injection E as -> _.
    simpl in Ha. discriminate.
  - rewrite !app_String in E. injection E as -> E.
    simpl in Ha, Hb. apply andb_prop in Ha as [_ Ha].
    apply andb_prop in Hb as [_ Hb].
    destruct (IH b Ha Hb E) as [-> ->]. done.
Qed.

Lemma segment_name_inj i j :
  0 <= i -> 0 <= j -> segment_name i = segment_name j -> i = j.
Proof.
  intros Hi Hj E. unfold segment_name in E.
  apply digits_then_dot in E as [E _]; try by apply all_digit_format_06d.
  by apply format_06d_inj.
Qed.

Lemma join_inj folder a b :
  sep_free a = true -> sep_free b = true ->
  PosixPath.join folder a = PosixPath.join folder b -> a = b.
Proof.
  intros Ha Hb. unfold PosixPath.join.
  assert (forall n, sep_free n = true -> PyStr.startswith n "/" = false) as Hs.
  { intros [|c n] Hn; [done|]. unfold sep_free in Hn. simpl in Hn.
    apply andb_prop in Hn as [Hc _]. apply negb_true_iff in Hc.
    unfold PosixPath.is_sep in Hc. cbn [PyStr.startswith].
    by rewrite Ascii.eqb_sym, Hc. }
  rewrite (Hs a Ha), (Hs b Hb).
  destruct (String.eqb folder "" || PyStr.endswith folder "/").
  - apply String.app_inj.
  - intros E. apply String.app_inj in E. by apply String.app_inj in E.
Qed.

Lemma segment_name_sep_free i : sep_free (segment_name i) = true.
Proof.
  by destruct (sanitize_segment_name _ (all_numeric_format_06d i)) as (_ & ? & _).
Qed.

Lemma segment_file_inj_aux temp_folder i j :
  0 <= i -> 0 <= j ->
  segment_file temp_folder i = segment_file temp_folder j -> i = j.
Proof.
  intros Hi Hj E. unfold segment_file in E.
  apply join_inj in E; try apply segment_name_sep_free.
  by apply segment_name_inj.
Qed.

(** X4: two segments are never saved under the same path. *)
Theorem segment_file_injective (temp_folder : string) (i j : Z) :
  0 <= i -> 0 <= j ->
  segment_file temp_folder i = segment_file temp_folder j -> i = j.
Proof. apply segment_file_inj_aux. Qed.

(** X5: a base URL without the marker is not noticed: every segment is
    then asked for at that one URL. *)
Theorem segment_url_without_marker (base_url : string) (i : Z) :
  PyStr.contains base_url "-000000.ts" = false ->
  segment_url base_url i = base_url.
Proof.
  intros H. unfold segment_url, PyStr.replace. by apply replace_from_absent.
Qed.

(** The first occurrence of the marker splits a string that holds one. *)
Lemma first_marker s :
  PyStr.contains s marker = true ->
  exists pre post,
    s = pre +:+ marker +:+ post
    /\ forall u v, pre = u +:+ v -> v <> EmptyString ->
                   PyStr.startswith (v +:+ marker +:+ post) marker = false.
Proof.
  induction s as [|c s IH]; [done|].
  cbn [PyStr.contains]. destruct (PyStr.startswith (String c s) marker) eqn:E.
  - intros _. apply startswith_split in E as [post ->].
    exists EmptyString, post. split; [done|].
    intros u v Huv Hv. destruct u; [by rewrite app_empty in Huv|done].
  - cbn [orb]. intros H. destruct (IH H) as (pre & post & -> & Hfree).
    exists (String c pre), post. split; [done|].
    intros [|c' u] v Huv Hv.
    + rewrite app_empty in Huv. subst v. by rewrite app_String.
    + rewrite app_String in Huv. injection Huv as _ Hpre. by apply (Hfree u v).
Qed.

(** X6: with the marker in the base URL, different segments have different
    URLs. *)
Theorem segment_url_injective (base_url : string) (i j : Z) :
  PyStr.contains base_url "-000000.ts" = true ->
  0 <= i -> 0 <= j ->
  segment_url base_url i = segment_url base_url j -> i = j.
Proof.
  intros Hc Hi Hj. fold marker in Hc.
  destruct (first_marker _ Hc) as (pre & post & -> & Hfree).
  unfold segment_url, PyStr.replace. fold marker.
  change (match marker with EmptyString => _ | _ => ?x end) with x.
  change (match marker with EmptyString => _ | _ => ?x end) with x.
  rewrite (replace_from_copy marker ("-" +:+ PyStr.format_06d i +:+ ".ts") pre)
    by exact Hfree.
  rewrite (replace_from_copy marker ("-" +:+ PyStr.format_06d j +:+ ".ts") pre)
    by exact Hfree.
  rewrite (replace_from_match marker ("-" +:+ PyStr.format_06d i +:+ ".ts")
             "-" "000000.ts") by done.
  rewrite (replace_from_match marker ("-" +:+ PyStr.format_06d j +:+ ".ts")
             "-" "000000.ts") by done.
  intros E. apply String.app_inj in E.
  rewrite !app_String, !app_empty in E. injection E as E.
  rewrite !string_app_assoc in E.
  change (".ts" +:+ ?r) with (String "." ("ts" +:+ r)) in E.
  apply digits_then_dot in E as [E _]; try by apply all_digit_format_06d.
  by apply format_06d_inj.
Qed.

(** ** What one attempt does to the files and to the log *)

Lemma gets_app l1 l2 : gets (l1 ++ l2) = gets l1 ++ gets l2.
Proof. apply omap_app. Qed.

Lemma commands_app l1 l2 : commands (l1 ++ l2) = commands l1 ++ commands l2.
Proof. apply omap_app. Qed.

Lemma entry_insert w dir name x d dir' name' :
  w_fs w !! dir = Some d ->
  entry (Os.set_fs (<[dir := <[name := x]> d]> (w_fs w)) w) dir' name'
  = if bool_decide (dir' = dir /\ name' = name) then Some x
    else entry w dir' name'.
Proof.
  intros Hd. unfold entry. cbn [w_fs Os.set_fs].
  destruct (decide (dir' = dir)) as [->|Hdir].
  - rewrite lookup_insert_eq, Hd. destruct (decide (name' = name)) as [->|Hn].
    + rewrite lookup_insert_eq. by rewrite bool_decide_eq_true_2.
    + rewrite lookup_insert_ne by done.
      rewrite bool_decide_eq_false_2; [done|]. by intros [_ ?].
  - rewrite lookup_insert_ne by done.
    rewrite bool_decide_eq_false_2; [done|]. by intros [? _].
Qed.

Lemma open_w_inv p w w' :
  Os.open_w p w = Ok tt w' ->
  exists d,
    w_fs w !! PosixPath.dirname p = Some d
    /\ w' = Os.set_fs (<[PosixPath.dirname p :=
                          <[PosixPath.basename p := NFile ""]> d]> (w_fs w)) w.
Proof.
  unfold Os.open_w. destruct (w_fs w !! PosixPath.dirname p) as [d|]; [|done].
  destruct (String.eqb (PosixPath.basename p) ""); [done|].
  intros H. exists d. split; [done|].
  destruct (d !! PosixPath.basename p) as [[c|]|]; by simplify_eq.
Qed.

Lemma open_w_raises p w e w' :
  Os.open_w p w = Raise e w' ->
  w' = w /\ forall msg, e <> RequestException msg.
Proof.
  unfold Os.open_w. intros H. repeat case_match; by simplify_eq.
Qed.

(** What an attempt that ends without exception has done: its result
    follows the reply; of the files, it has touched the segment's own only;
    it has sent one request and neither slept nor run a command. *)
Lemma attempt_once_inv srv tf url retries attempt st w got w' :
  tidy tf ->
  attempt_once srv tf url (PyStr.format_06d (segment_number st)) retries attempt st w
  = Ok got w' ->
  got = (if delivers (srv (segment_number st) attempt)
         then Some (downloaded tf st) else None)
  /\ (forall dir name,
        entry w' dir name
        = if bool_decide (dir = tf /\ name = segment_name (segment_number st))
          then stored srv (segment_number st) attempt
                 (entry w tf (segment_name (segment_number st)))
          else entry w dir name)
  /\ gets (w_log w') = gets (w_log w) ++ [(url, 10)]
  /\ sleeps (w_log w') = sleeps (w_log w)
  /\ commands (w_log w') = commands (w_log w).
Proof.
  intros Ht. unfold attempt_once, except_request, requests_get, stored.
  rewrite sanitize_format_06d. fold (segment_name (segment_number st)).
  destruct (split_join tf _ Ht (segment_name_sep_free (segment_number st)))
    as [Edir Ebase].
  assert (forall log, entry (World (w_fs w) log) = entry w) as Hlog by done.
  destruct (srv (segment_number st) attempt) as [r|msg] eqn:Hsrv.
  - unfold delivers. destruct (status_code r =? 200) eqn:Hcode.
    + unfold mbind, M_bind, Os.print, Os.emit, raise, mret, M_ret, write_content.
      cbn [w_fs w_log]. rewrite Hcode. unfold mbind, M_bind.
      destruct (Os.open_w _ _) as [[] w1|e w1|] eqn:Hopen.
      * apply open_w_inv in Hopen as (d & Hd & ->).
        rewrite Edir, Ebase in *. cbn [w_fs] in Hd.
        erewrite (for_each_write (fun x => x) (chunks r) _ _ _ "");
          [|rewrite Edir, set_fs_fs; apply lookup_insert_eq
           |rewrite Ebase; apply lookup_insert_eq].
        rewrite Edir, Ebase, set_fs_fs, set_fs_set_fs, !insert_insert_eq, app_empty.
        fold (body_of r).
        destruct (cut_short r) as [msg|]; cbn [andb];
          [rewrite bool_decide_eq_false_2 by done
          |rewrite bool_decide_eq_true_2 by done];
          intros [= <- <-]; (split; [reflexivity|]);
          (split; [intros dir name;
                   pose proof (entry_insert
                     (World (w_fs w) ((w_log w ++ [EPrint
                        ("Downloading " +:+ url +:+ " (Attempt "
                         +:+ PyStr.str_of_int (attempt + 1) +:+ "/"
                         +:+ PyStr.str_of_int retries +:+ ")...")])
                        ++ [EGet url 10]))
                     tf (segment_name (segment_number st))
                     (NFile (body_of r)) d dir name Hd) as He;
                   rewrite Hlog in He; rewrite <- He; reflexivity|]);
          cbn [w_log Os.set_fs];
          rewrite !gets_app, !sleeps_app, !commands_app; cbn;
          by rewrite ?app_nil_r.
      * apply open_w_raises in Hopen as [-> Hne].
        destruct e; try done. by destruct (Hne msg).
      * done.
    + unfold mbind, M_bind, Os.print, Os.emit, raise, mret, M_ret.
      cbn [w_fs w_log andb]. rewrite Hcode. intros [= <- <-].
      split; [reflexivity|]. split.
      * intros dir name. rewrite Hlog. case_bool_decide as Hc; [|done].
        by destruct Hc as [-> ->].
      * cbn [w_log]. rewrite !gets_app, !sleeps_app, !commands_app. cbn.
        by rewrite ?app_nil_r.
  - unfold mbind, M_bind, Os.print, Os.emit, raise, mret, M_ret.
    cbn [w_fs w_log delivers]. intros [= <- <-].
    split; [reflexivity|]. split.
    + intros dir name. rewrite Hlog. case_bool_decide as Hc; [|done].
      by destruct Hc as [-> ->].
    + cbn [w_log]. rewrite !gets_app, !sleeps_app, !commands_app. cbn.
      by rewrite ?app_nil_r.
Qed.

(** ** What one turn does *)

Lemma retry_loop_inv srv tf url retries backoff attempts st w b st' w' :
  tidy tf ->
  retry_loop srv tf url (PyStr.format_06d (segment_number st)) retries backoff
    attempts st w = Ok (b, st') w' ->
  b = existsb (fun a => delivers (srv (segment_number st) a)) attempts
  /\ st' = (if b then downloaded tf st else st)
  /\ (forall dir name,
        entry w' dir name
        = if bool_decide (dir = tf /\ name = segment_name (segment_number st))
          then stored_after srv (segment_number st) attempts
                 (entry w tf (segment_name (segment_number st)))
          else entry w dir name)
  /\ gets (w_log w')
     = gets (w_log w)
       ++ replicate (attempts_made srv (segment_number st) attempts) (url, 10)
  /\ commands (w_log w') = commands (w_log w).
Proof.
  intros Ht. revert w. induction attempts as [|a rest IH]; intros w.
  - cbn. intros [= <- <- <-]. repeat split; try by rewrite ?app_nil_r.
    intros dir name. case_bool_decide as Hc; [|done]. by destruct Hc as [-> ->].
  - cbn [retry_loop]. unfold mbind at 1. unfold M_bind at 1.
    destruct (attempt_once _ _ _ _ _ _ _ _) as [got w1|e w1|] eqn:Hatt;
      [|done|done].
    apply attempt_once_inv in Hatt as (-> & Hent & Hgets & _ & Hcmd); [|done].
    unfold attempts_made. cbn [existsb failed_first stored_after].
    destruct (delivers (srv (segment_number st) a)); cbn [orb].
    + unfold mret, M_ret. intros [= <- <- <-].
      repeat split; rewrite ?Hgets; done.
    + unfold mbind at 1. unfold M_bind at 1.
      remember (if a <? retries - 1 then Os.sleep (backoff * (a + 1)) else mret tt)
        as pause eqn:Hpause.
      destruct (pause w1) as [[] w2|e w2|] eqn:Hsl; [|done|done].
      rewrite Hpause in Hsl. clear Hpause pause.
      assert (entry w2 = entry w1 /\ gets (w_log w2) = gets (w_log w1)
              /\ commands (w_log w2) = commands (w_log w1)) as (He2 & Hg2 & Hc2).
      { destruct (a <? retries - 1).
        - unfold Os.sleep in Hsl. destruct (_ <? 0); [done|].
          injection Hsl as <-. cbn [w_log].
          rewrite gets_app, commands_app. cbn. by rewrite !app_nil_r.
        - by injection Hsl as <-. }
      intros Hrest. apply IH in Hrest as (-> & -> & Hent' & Hgets' & Hcmd').
      split; [done|]. split; [done|]. split; [|split].
      * intros dir name. rewrite Hent', He2, !Hent.
        rewrite (bool_decide_eq_true_2 (tf = tf /\ _)) by done.
        by case_bool_decide.
      * by rewrite Hgets', Hg2, Hgets, <- app_assoc.
      * by rewrite Hcmd', Hc2, Hcmd.
Qed.

(** A turn that ends without exception has done what [after_segment]
    says. *)
Lemma fetch_step_inv srv base_url tf retries backoff st w stop st' w' :
  tidy tf ->
  fetch_step srv base_url tf retries backoff st w = Ok (stop, st') w' ->
  (stop, st') = after_segment srv tf retries st
  /\ (forall dir name,
        entry w' dir name
        = if bool_decide (dir = tf /\ name = segment_name (segment_number st))
          then stored_after srv (segment_number st) (range retries)
                 (entry w tf (segment_name (segment_number st)))
          else entry w dir name)
  /\ gets (w_log w')
     = gets (w_log w)
       ++ replicate (attempts_made srv (segment_number st) (range retries))
            (segment_url base_url (segment_number st), 10)
  /\ commands (w_log w') = commands (w_log w).
Proof.
  intros Ht. unfold fetch_step. unfold mbind at 1. unfold M_bind at 1.
  destruct (retry_loop _ _ _ _ _ _ _ _ _) as [[b st1] w1|e w1|] eqn:Hloop;
    [|done|done].
  apply retry_loop_inv in Hloop as (Hb & -> & Hent & Hgets & Hcmd); [|done].
  fold (succeeds srv retries (segment_number st)) in Hb.
  unfold after_segment. rewrite <- Hb. destruct b; cbn [negb].
  - unfold mret, M_ret. intros [= <- <- <-]. done.
  - unfold mbind, M_bind, Os.print, Os.emit, mret, M_ret.
    cbn [failed_attempts segment_number ts_files].
    destruct (failed_attempts st + 1 >=? 5); intros [= <- <- <-];
      (split; [done|]); (split; [intros dir name; apply Hent|]);
      cbn [w_log]; rewrite !gets_app, !commands_app; cbn;
      by rewrite ?app_nil_r.
Qed.

(** An invariant of the turns holds when the loop stops. *)
Lemma fetch_loop_invariant (P : fetch_state -> world -> Prop)
    srv base_url tf retries backoff :
  (forall st w stop st' w',
     P st w -> fetch_step srv base_url tf retries backoff st w = Ok (stop, st') w' ->
     P st' w') ->
  forall fuel st w st' w',
    P st w ->
    fetch_loop fuel srv base_url tf retries backoff st w = Ok st' w' ->
    P st' w'.
Proof.
  intros Hstep. induction fuel as [|fuel IH]; intros st w st' w' HP; [done|].
  cbn [fetch_loop]. unfold mbind at 1. unfold M_bind at 1.
  destruct (fetch_step _ _ _ _ _ _ _) as [[stop st1] w1|e w1|] eqn:E;
    [|done|done].
  pose proof (Hstep _ _ _ _ _ HP E) as HP1. destruct stop.
  - unfold mret, M_ret. by intros [= <- <-].
  - by apply IH.
Qed.

Lemma fetch_loop_inv srv base_url tf retries backoff fuel st w st' w' :
  tidy tf ->
  fetch_loop fuel srv base_url tf retries backoff st w = Ok st' w' ->
  loop_end fuel srv tf retries st = Some st'
  /\ gets (w_log w')
     = gets (w_log w) ++ loop_requests fuel srv base_url tf retries st
  /\ commands (w_log w') = commands (w_log w).
Proof.
  intros Ht. revert st w. induction fuel as [|fuel IH]; intros st w; [done|].
  cbn [fetch_loop loop_end loop_requests]. unfold mbind at 1. unfold M_bind at 1.
  destruct (fetch_step _ _ _ _ _ _ _) as [[stop st1] w1|e w1|] eqn:E;
    [|done|done].
  apply fetch_step_inv in E as (Hspec & _ & Hgets & Hcmd); [|done].
  rewrite <- Hspec. destruct stop.
  - unfold mret, M_ret. intros [= <- <-]. by rewrite app_nil_r.
  - intros Hrest. apply IH in Hrest as (Hend & Hgets' & Hcmd').
    split; [done|]. split; [|congruence].
    by rewrite Hgets', Hgets, <- app_assoc.
Qed.

Lemma makedirs_inv p w w' :
  Os.makedirs p w = Ok tt w' ->
  (forall dir name, entry w' dir name = entry w dir name)
  /\ w_log w' = w_log w /\ is_Some (w_fs w' !! p).
Proof.
  unfold Os.makedirs. destruct (String.eqb p ""); [done|].
  destruct (w_fs w !! p) as [d|] eqn:E.
  - intros [= <-]. rewrite E. eauto.
  - intros [= <-]. split; [|split; [done|]].
    + intros dir name. unfold entry. cbn [w_fs Os.set_fs].
      destruct (decide (dir = p)) as [->|Hne].
      * by rewrite lookup_insert_eq, E, lookup_empty.
      * by rewrite lookup_insert_ne.
    + cbn [w_fs Os.set_fs]. rewrite lookup_insert_eq. eauto.
Qed.

(** The run of [download_run] taken apart. *)
Lemma download_run_inv srv base_url tf retries backoff fuel w st w' :
  download_run fuel srv base_url tf retries backoff w = Ok st w' ->
  exists w1,
    (forall dir name, entry w1 dir name = entry w dir name)
    /\ gets (w_log w1) = gets (w_log w)
    /\ commands (w_log w1) = commands (w_log w)
    /\ fetch_loop fuel srv base_url tf retries backoff fetch_start w1 = Ok st w'.
Proof.
  unfold download_run, mbind, M_bind.
  destruct (Os.makedirs tf w) as [[] w1|e w1|] eqn:Hmk; [|done|done].
  apply makedirs_inv in Hmk as (Hent & Hlog & _).
  unfold Os.print, Os.emit. intros Hloop.
  eexists. split; [|split; [|split; [|exact Hloop]]].
  - exact Hent.
  - cbn [w_log]. rewrite gets_app, Hlog. cbn. by rewrite app_nil_r.
  - cbn [w_log]. rewrite commands_app, Hlog. cbn. by rewrite app_nil_r.
Qed.

Lemma download_ts_segments_inv srv base_url tf retries backoff fuel w files w' :
  download_ts_segments fuel srv base_url tf retries backoff w = Ok files w' ->
  exists st,
    download_run fuel srv base_url tf retries backoff w = Ok st w'
    /\ files = ts_files st.
Proof.
  unfold download_ts_segments, mbind, M_bind.
  destruct (download_run _ _ _ _ _ _ w) as [st w1|e w1|]; [|done|done].
  unfold mret, M_ret. intros [= <- <-]. by exists st.
Qed.

(** ** Requests *)

Lemma failed_first_all srv seg attempts :
  existsb (fun a => delivers (srv seg a)) attempts = false ->
  failed_first srv seg attempts = attempts.
Proof.
  induction attempts as [|a rest IH]; [done|]. cbn [existsb failed_first].
  intros [Ha Hrest]%orb_false_elim. rewrite Ha. by rewrite IH.
Qed.

Lemma attempts_made_le srv seg attempts :
  (attempts_made srv seg attempts <= length attempts)%nat.
Proof.
  unfold attempts_made. induction attempts as [|a rest IH]; [cbn; lia|].
  cbn [existsb failed_first length].
  destruct (delivers (srv seg a)); cbn [orb length]; lia.
Qed.

Lemma length_range n : length (range n) = Z.to_nat n.
Proof. unfold range. by rewrite length_map, length_seq. Qed.

(** X7: in a turn that ends without exception, the requests all go to the
    URL of the turn's segment, with a timeout of 10; there are as many as
    failed attempts, plus the one that delivers: never more than
    [retries], and as many when the segment fails. *)
Theorem turn_requests (srv : oracle) (base_url temp_folder : string)
    (retries backoff : Z) (st st' : fetch_state) (w w' : world) (stop : bool) :
  tidy temp_folder ->
  fetch_step srv base_url temp_folder retries backoff st w = Ok (stop, st') w' ->
  gets (w_log w')
  = gets (w_log w)
    ++ replicate (attempts_made srv (segment_number st) (range retries))
         (segment_url base_url (segment_number st), 10)
  /\ (attempts_made srv (segment_number st) (range retries) <= Z.to_nat retries)%nat
  /\ (succeeds srv retries (segment_number st) = false ->
      attempts_made srv (segment_number st) (range retries) = Z.to_nat retries).
Proof.
  intros Ht Hstep. apply fetch_step_inv in Hstep as (_ & _ & Hgets & _); [|done].
  split; [exact Hgets|]. split.
  - rewrite <- length_range. apply attempts_made_le.
  - intros Hf. unfold attempts_made. unfold succeeds in Hf.
    rewrite Hf, failed_first_all, length_range by done. lia.
Qed.

(** ** Where the loop stops *)

Lemma loop_end_invariant (P Q : fetch_state -> Prop) srv tf retries :
  (forall st st', P st -> after_segment srv tf retries st = (false, st') -> P st') ->
  (forall st st', P st -> after_segment srv tf retries st = (true, st') -> Q st') ->
  forall fuel st st',
    P st -> loop_end fuel srv tf retries st = Some st' -> Q st'.
Proof.
  intros Hgo Hstop. induction fuel as [|fuel IH]; intros st st' HP; [done|].
  cbn [loop_end]. destruct (after_segment srv tf retries st) as [[] st1] eqn:E.
  - intros [= <-]. by apply (Hstop st).
  - apply IH. by apply (Hgo st).
Qed.

Lemma range_succ n : 0 <= n -> range (n + 1) = range n ++ [n].
Proof.
  intros Hn. unfold range.
  replace (Z.to_nat (n + 1)) with (S (Z.to_nat n)) by lia.
  rewrite seq_S, map_app. cbn. do 2 f_equal. lia.
Qed.

Lemma between_turns_start srv tf retries : between_turns srv tf retries fetch_start.
Proof. unfold between_turns, fetch_start. cbn. repeat split; try lia; done. Qed.

Lemma between_turns_go srv tf retries st st' :
  between_turns srv tf retries st ->
  after_segment srv tf retries st = (false, st') ->
  between_turns srv tf retries st'.
Proof.
  intros (Hf & Hle & Hfail & Hlast & Hruns & Hfiles). unfold after_segment.
  destruct (succeeds srv retries (segment_number st)) eqn:Hs.
  - intros [= <-]. unfold between_turns. cbn [segment_number failed_attempts ts_files].
    split; [lia|]. split; [lia|]. split; [intros j Hj; lia|].
    split; [intros _; by replace (segment_number st + 1 - 0 - 1)
                          with (segment_number st) by lia|].
    split.
    + intros s Hs'. destruct (decide (s = segment_number st)) as [->|Hne].
      * exists (segment_number st). split; [lia|done].
      * apply Hruns. lia.
    + rewrite range_succ, List.filter_app, map_app, Hfiles by lia.
      cbn [List.filter]. by rewrite Hs.
  - destruct (failed_attempts st + 1 >=? 5) eqn:E; [done|].
    intros [= <-]. unfold between_turns. cbn [segment_number failed_attempts ts_files].
    split; [lia|]. split; [lia|]. split.
    + intros j Hj. destruct (decide (j = segment_number st)) as [->|Hne];
        [done|apply Hfail; lia].
    + split.
      * intros Hlt. replace (segment_number st + 1 - (failed_attempts st + 1) - 1)
          with (segment_number st - failed_attempts st - 1) by lia.
        apply Hlast. lia.
      * split.
        -- intros s Hs'. destruct (decide (s = segment_number st)) as [->|Hne].
           ++ exists (segment_number st - failed_attempts st - 1).
              split; [lia|]. apply Hlast. lia.
           ++ apply Hruns. lia.
        -- rewrite range_succ, List.filter_app, map_app, Hfiles by lia.
           cbn [List.filter]. rewrite Hs. cbn. by rewrite app_nil_r.
Qed.

Lemma between_turns_stop srv tf retries st st' :
  between_turns srv tf retries st ->
  after_segment srv tf retries st = (true, st') ->
  stopped srv tf retries st'.
Proof.
  intros (Hf & Hle & Hfail & Hlast & Hruns & Hfiles). unfold after_segment.
  destruct (succeeds srv retries (segment_number st)) eqn:Hs; [done|].
  destruct (failed_attempts st + 1 >=? 5) eqn:E; [|done].
  intros [= <-]. unfold stopped. cbn [segment_number failed_attempts ts_files].
  split; [lia|]. split; [lia|]. split; [|done].
  intros j Hj. destruct (decide (j = segment_number st)) as [->|Hne];
    [done|apply Hfail; lia].
Qed.

Lemma loop_end_stopped srv tf retries fuel st :
  loop_end fuel srv tf retries fetch_start = Some st -> stopped srv tf retries st.
Proof.
  apply (loop_end_invariant (between_turns srv tf retries) (stopped srv tf retries)).
  - apply between_turns_go.
  - apply between_turns_stop.
  - apply between_turns_start.
Qed.

Lemma download_stopped srv base_url tf retries backoff fuel w files w' :
  tidy tf ->
  download_ts_segments fuel srv base_url tf retries backoff w = Ok files w' ->
  exists st, stopped srv tf retries st /\ files = ts_files st.
Proof.
  intros Ht Hdl. apply download_ts_segments_inv in Hdl as (st & Hrun & ->).
  apply download_run_inv in Hrun as (w1 & _ & _ & _ & Hloop).
  apply fetch_loop_inv in Hloop as (Hend & _); [|done].
  exists st. split; [by apply loop_end_stopped in Hend|done].
Qed.

(** X8: when [download_ts_segments] returns, it has stopped at the first
    segment [n] that closes a run of five failed segments, and its list is
    made of the paths of all the segments below [n] that are delivered
    within the retries, in increasing order. *)
Theorem download_returns_delivered_segments (fuel : nat) (srv : oracle)
    (base_url temp_folder : string) (retries backoff : Z) (w w' : world)
    (files : list string) :
  tidy temp_folder ->
  download_ts_segments fuel srv base_url temp_folder retries backoff w
  = Ok files w' ->
  exists n : Z,
    4 <= n
    /\ (forall j, n - 4 <= j <= n -> succeeds srv retries j = false)
    /\ (forall s, 4 <= s < n ->
          exists j, s - 4 <= j <= s /\ succeeds srv retries j = true)
    /\ files = map (segment_file temp_folder)
                 (List.filter (succeeds srv retries) (range n)).
Proof.
  intros Ht Hdl.
  destruct (download_stopped _ _ _ _ _ _ _ _ _ Ht Hdl)
    as (st & (_ & Hn & Hfail & Hruns & Hfiles) & ->).
  exists (segment_number st). done.
Qed.

Lemma fetch_loop_starves srv base_url tf retries backoff fuel st w :
  tidy tf -> ready tf w -> 0 <= backoff ->
  loop_end fuel srv tf retries st = None ->
  fetch_loop fuel srv base_url tf retries backoff st w = OutOfFuel.
Proof.
  intros Ht Hr Hb. revert st w Hr.
  induction fuel as [|fuel IH]; intros st w Hr; [done|].
  cbn [loop_end fetch_loop].
  destruct (fetch_step_run srv base_url tf retries backoff st w Ht Hr Hb)
    as (w1 & Hrun & Hr1).
  erewrite bind_Ok by exact Hrun.
  destruct (after_segment srv tf retries st) as [[] st1]; [done|]. by apply IH.
Qed.

(** X9: as long as every run of five consecutive segments holds one that
    is delivered, [download_ts_segments] never returns: no amount of fuel
    makes it end with a list, and where the working directory is usable
    and the backoff not negative it runs for as long as it is given. *)
Theorem download_never_ends_on_a_live_stream (srv : oracle)
    (base_url temp_folder : string) (retries backoff : Z) (w : world) :
  tidy temp_folder ->
  (forall s, 4 <= s -> exists j, s - 4 <= j <= s /\ succeeds srv retries j = true) ->
  (forall fuel files w',
     download_ts_segments fuel srv base_url temp_folder retries backoff w
     <> Ok files w')
  /\ (usable temp_folder w -> 0 <= backoff ->
      forall fuel,
        download_ts_segments fuel srv base_url temp_folder retries backoff w
        = OutOfFuel).
Proof.
  intros Ht Hlive.
  assert (forall fuel, loop_end fuel srv temp_folder retries fetch_start = None)
    as Hnone.
  { intros fuel.
    destruct (loop_end fuel srv temp_folder retries fetch_start) as [st|] eqn:E;
      [|done].
    apply loop_end_stopped in E as (_ & Hn & Hfail & _).
    destruct (Hlive _ Hn) as (j & Hj & Hs). rewrite Hfail in Hs; done. }
  split.
  - intros fuel files w' Hdl.
    apply download_ts_segments_inv in Hdl as (st & Hrun & _).
    apply download_run_inv in Hrun as (w1 & _ & _ & _ & Hloop).
    apply fetch_loop_inv in Hloop as (Hend & _); [|done].
    by rewrite Hnone in Hend.
  - intros Hu Hb fuel.
    destruct (makedirs_ready temp_folder w Hu) as (w1 & Hmk & Hr1 & _).
    unfold download_ts_segments, download_run.
    unfold mbind at 1. unfold M_bind at 1.
    erewrite bind_Ok by exact Hmk. erewrite bind_Ok by reflexivity.
    rewrite fetch_loop_starves; [done|done| |done|apply Hnone].
    by destruct w1.
Qed.

Lemma loop_requests_more fuel fuel' srv base_url tf retries st st' :
  loop_end fuel srv tf retries st = Some st' -> (fuel <= fuel')%nat ->
  loop_requests fuel' srv base_url tf retries st
  = loop_requests fuel srv base_url tf retries st.
Proof.
  revert fuel' st. induction fuel as [|fuel IH]; intros fuel' st; [done|].
  intros H Hle. destruct fuel' as [|fuel']; [lia|].
  cbn [loop_end loop_requests] in *.
  destruct (after_segment srv tf retries st) as [[] st1]; [done|].
  f_equal. apply IH; [done|lia].
Qed.

(** X10: on a host where every attempt on segments 0 to 4 fails, the
    function returns the empty list after these five segments, having sent
    [retries] requests for each of them in turn and no other; with
    [retries] at 0 or below it sends none. *)
Theorem download_from_dead_host (srv : oracle) (base_url temp_folder : string)
    (retries backoff : Z) (fuel : nat) (w : world) :
  tidy temp_folder -> usable temp_folder w -> 0 <= backoff ->
  (forall seg a, 0 <= seg <= 4 -> 0 <= a < retries ->
     delivers (srv seg a) = false) ->
  (5 <= fuel)%nat ->
  exists w' : world,
    download_ts_segments fuel srv base_url temp_folder retries backoff w = Ok [] w'
    /\ gets (w_log w')
       = gets (w_log w)
         ++ flat_map (fun i => replicate (Z.to_nat retries) (segment_url base_url i, 10))
              [0; 1; 2; 3; 4].
Proof.
  intros Ht Hu Hb Hdead Hfuel.
  assert (forall seg, 0 <= seg <= 4 -> succeeds srv retries seg = false) as Hf.
  { intros seg Hseg. apply succeeds_false. intros a Ha. by apply Hdead. }
  assert (loop_end 5 srv temp_folder retries fetch_start
          = Some (FetchState 4 5 [])) as Hend.
  { unfold fetch_start.
    do 4 (cbn [loop_end]; rewrite after_segment_ko by (try apply Hf; lia)).
    cbn [loop_end]. by rewrite after_segment_stop by (try apply Hf; lia). }
  destruct (download_run_end srv base_url temp_folder retries backoff fuel
              (FetchState 4 5 []) w Ht Hu Hb) as (w' & Hrun & Hdl).
  { by apply (loop_end_more 5). }
  exists w'. split; [exact Hdl|].
  apply download_run_inv in Hrun as (w1 & _ & Hg1 & _ & Hloop).
  apply fetch_loop_inv in Hloop as (_ & Hgets & _); [|done].
  rewrite Hgets, Hg1. f_equal.
  rewrite (loop_requests_more 5 fuel _ _ _ _ _ _ Hend Hfuel).
  assert (forall seg, 0 <= seg <= 4 ->
            attempts_made srv seg (range retries) = Z.to_nat retries) as Hn.
  { intros seg Hseg. unfold attempts_made. pose proof (Hf seg Hseg) as Hs.
    unfold succeeds in Hs. rewrite Hs, failed_first_all, length_range by done.
    lia. }
  unfold fetch_start.
  do 4 (cbn [loop_requests segment_number];
        rewrite after_segment_ko, Hn by (try apply Hf; lia)).
  cbn [loop_requests segment_number].
  rewrite after_segment_stop, Hn by (try apply Hf; lia).
  cbn [flat_map]. by rewrite !app_nil_r.
Qed.

(** X11: a negative backoff stops the whole download at the first failed
    attempt that has a successor: [time.sleep] refuses it, the exception
    is not caught, and no list is returned. *)
Theorem download_raises_on_negative_backoff (srv : oracle)
    (base_url temp_folder : string) (retries backoff : Z) (fuel : nat) (w : world) :
  tidy temp_folder -> usable temp_folder w ->
  backoff < 0 -> 2 <= retries -> delivers (srv 0 0) = false ->
  exists w' : world,
    download_ts_segments (S fuel) srv base_url temp_folder retries backoff w
    = Raise (ValueError "sleep length must be non-negative") w'
    /\ gets (w_log w') = gets (w_log w) ++ [(segment_url base_url 0, 10)].
Proof.
  intros Ht Hu Hb Hr Hfail.
  destruct (makedirs_ready temp_folder w Hu) as (w1 & Hmk & Hr1 & Hlog1).
  set (w2 := World (w_fs w1) (w_log w1 ++ [EPrint "Starting download..."])).
  assert (ready temp_folder w2) as Hr2 by (by destruct w1).
  destruct (attempt_once_run srv temp_folder (segment_url base_url 0) retries 0
              fetch_start w2 Ht Hr2) as (w3 & Hatt & _ & _).
  pose proof Hatt as Hatt'.
  apply attempt_once_inv in Hatt' as (_ & _ & Hgets & _); [|done].
  cbn [segment_number fetch_start] in Hatt. rewrite Hfail in Hatt.
  exists w3. split.
  - unfold download_ts_segments, download_run.
    apply bind_Raise. erewrite bind_Ok by exact Hmk.
    erewrite bind_Ok by reflexivity. fold w2.
    cbn [fetch_loop]. apply bind_Raise. unfold fetch_step.
    apply bind_Raise. unfold range.
    replace (Z.to_nat retries) with (S (Z.to_nat (retries - 1))) by lia.
    cbn [seq map retry_loop segment_number fetch_start].
    change (Z.of_nat 0) with 0.
    erewrite bind_Ok by exact Hatt. apply bind_Raise.
    destruct (0 <? retries - 1) eqn:E; [|lia].
    unfold Os.sleep. destruct (backoff * (0 + 1) <? 0) eqn:E2; [done|lia].
  - rewrite Hgets. subst w2. cbn [w_log]. rewrite gets_app, Hlog1. cbn.
    by rewrite app_nil_r.
Qed.

(** ** The files of a download *)

Lemma existsb_first_delivery srv seg attempts :
  existsb (fun a => delivers (srv seg a)) attempts = true ->
  forall old,
    exists r,
      first_delivery srv seg attempts = Some r
      /\ stored_after srv seg attempts old = Some (NFile (body_of r)).
Proof.
  induction attempts as [|a rest IH]; [done|].
  cbn [existsb first_delivery stored_after]. unfold delivers at 1 3, stored.
  intros H old. destruct (srv seg a) as [r|msg].
  - destruct (status_code r =? 200) eqn:Hc; cbn [andb] in *.
    + destruct (bool_decide (cut_short r = None)); cbn [orb] in *.
      * by exists r.
      * by apply IH.
    + by apply IH.
  - by apply IH.
Qed.

(** X12: a download that returns has changed, of all the files, only
    segment files of the working directory: every entry of another
    directory, and every entry of the working directory that is not named
    as a segment, is as it was. *)
Theorem download_touches_segment_files_only (fuel : nat) (srv : oracle)
    (base_url temp_folder : string) (retries backoff : Z) (w w' : world)
    (files : list string) :
  tidy temp_folder ->
  download_ts_segments fuel srv base_url temp_folder retries backoff w
  = Ok files w' ->
  forall dir name : string,
    dir <> temp_folder \/ (forall i, 0 <= i -> name <> segment_name i) ->
    entry w' dir name = entry w dir name.
Proof.
  intros Ht Hdl dir name Hother.
  apply download_ts_segments_inv in Hdl as (st & Hrun & _).
  apply download_run_inv in Hrun as (w1 & Hent1 & _ & _ & Hloop).
  rewrite <- Hent1.
  assert (forall st0 w0 stop st0' w0',
            0 <= segment_number st0 /\ entry w0 dir name = entry w1 dir name ->
            fetch_step srv base_url temp_folder retries backoff st0 w0
            = Ok (stop, st0') w0' ->
            0 <= segment_number st0' /\ entry w0' dir name = entry w1 dir name)
    as Hinv.
  { intros st0 w0 stop st0' w0' [Hseg Hsame] Hstep.
    apply fetch_step_inv in Hstep as (Hspec & Hent & _); [|done].
    split.
    - unfold after_segment in Hspec. repeat case_match; simplify_eq; cbn; lia.
    - rewrite Hent, <- Hsame. case_bool_decide as Hc; [|done].
      destruct Hc as [-> ->]. destruct Hother as [?|Hn]; [done|].
      by destruct (Hn _ Hseg). }
  assert (0 <= segment_number fetch_start
          /\ entry w1 dir name = entry w1 dir name) as Hstart by done.
  by destruct (fetch_loop_invariant
                 (fun st0 w0 => 0 <= segment_number st0
                                /\ entry w0 dir name = entry w1 dir name)
                 _ _ _ _ _ Hinv fuel _ _ _ _ Hstart Hloop) as [_ H].
Qed.

(** X13: every path a download returns names a file of the final world,
    and this file holds the whole body of the response that delivered the
    segment, whatever earlier attempts had left there. *)
Theorem download_stores_delivered_bodies (fuel : nat) (srv : oracle)
    (base_url temp_folder : string) (retries backoff : Z) (w w' : world)
    (files : list string) :
  tidy temp_folder ->
  download_ts_segments fuel srv base_url temp_folder retries backoff w
  = Ok files w' ->
  exists idxs : list Z,
    files = map (segment_file temp_folder) idxs
    /\ Forall (fun i =>
         exists r : response,
           first_delivery srv i (range retries) = Some r
           /\ entry w' (PosixPath.dirname (segment_file temp_folder i))
                (PosixPath.basename (segment_file temp_folder i))
              = Some (NFile (body_of r))) idxs.
Proof.
  intros Ht Hdl.
  apply download_ts_segments_inv in Hdl as (st & Hrun & ->).
  apply download_run_inv in Hrun as (w1 & _ & _ & _ & Hloop).
  set (P := fun (st : fetch_state) (w2 : world) =>
              0 <= segment_number st
              /\ exists idxs,
                   ts_files st = map (segment_file temp_folder) idxs
                   /\ Forall (fun i =>
                        0 <= i < segment_number st
                        /\ exists r,
                             first_delivery srv i (range retries) = Some r
                             /\ entry w2 temp_folder (segment_name i)
                                = Some (NFile (body_of r))) idxs).
  assert (forall st0 w0 stop st0' w0',
            P st0 w0 ->
            fetch_step srv base_url temp_folder retries backoff st0 w0
            = Ok (stop, st0') w0' -> P st0' w0') as Hinv.
  { unfold P. intros st0 w0 stop st0' w0' (Hseg & idxs & Hfiles & Hall) Hstep.
    apply fetch_step_inv in Hstep as (Hspec & Hent & _); [|done].
    assert (Forall (fun i =>
              0 <= i < segment_number st0
              /\ exists r,
                   first_delivery srv i (range retries) = Some r
                   /\ entry w0' temp_folder (segment_name i)
                      = Some (NFile (body_of r))) idxs) as Hkept.
    { eapply Forall_impl; [exact Hall|]. cbn. intros i (Hi & r & Hr & He).
      split; [done|]. exists r. split; [done|]. rewrite Hent.
      rewrite bool_decide_eq_false_2; [done|]. intros [_ Hn].
      apply segment_name_inj in Hn; lia. }
    unfold after_segment in Hspec.
    destruct (succeeds srv retries (segment_number st0)) eqn:Hs.
    + injection Hspec as -> ->. cbn [segment_number ts_files].
      split; [lia|]. exists (idxs ++ [segment_number st0]).
      rewrite map_app, Hfiles. split; [done|]. apply Forall_app. split.
      * eapply Forall_impl; [exact Hkept|]. cbn. intros i (Hi & Hr).
        split; [lia|done].
      * apply Forall_singleton. split; [lia|].
        destruct (existsb_first_delivery srv (segment_number st0) (range retries) Hs
                    (entry w0 temp_folder (segment_name (segment_number st0))))
          as (r & Hr & Hst).
        exists r. split; [done|]. rewrite Hent.
        by rewrite bool_decide_eq_true_2.
    + destruct (failed_attempts st0 + 1 >=? 5); injection Hspec as -> ->;
        cbn [segment_number ts_files]; (split; [lia|]); exists idxs;
        (split; [done|]); [done|].
      eapply Forall_impl; [exact Hkept|]. cbn. intros i (Hi & Hr).
      split; [lia|done]. }
  assert (P fetch_start w1) as Hstart.
  { unfold P. split; [done|]. exists []. split; [done|constructor]. }
  destruct (fetch_loop_invariant _ _ _ _ _ _ Hinv fuel _ _ _ _ Hstart Hloop)
    as (_ & idxs & Hfiles & Hall).
  exists idxs. split; [exact Hfiles|].
  eapply Forall_impl; [exact Hall|]. cbn. intros i (_ & r & Hr & He).
  exists r. split; [exact Hr|].
  destruct (split_join temp_folder _ Ht (segment_name_sep_free i)) as [Hd Hb].
  unfold segment_file. fold (segment_name i). by rewrite Hd, Hb.
Qed.

(** ** Directories are never removed *)

Lemma keeps_dirs_ret {A} (a : A) : keeps_dirs (mret a).
Proof. intros w. unfold mret, M_ret. auto. Qed.

Lemma keeps_dirs_bind {A B} (m : M A) (f : A -> M B) :
  keeps_dirs m -> (forall a, keeps_dirs (f a)) -> keeps_dirs (m ≫= f).
Proof.
  intros Hm Hf w. specialize (Hm w). unfold mbind, M_bind.
  destruct (m w) as [a w1|e w1|]; [|done|done].
  specialize (Hf a w1). destruct (f a w1) as [b w2|e w2|]; [| |done];
    intros p Hp; by apply Hf, Hm.
Qed.

Lemma keeps_dirs_except {A} (m : M A) (h : string -> M A) :
  keeps_dirs m -> (forall msg, keeps_dirs (h msg)) -> keeps_dirs (except_request m h).
Proof.
  intros Hm Hh w. specialize (Hm w). unfold except_request.
  destruct (m w) as [a w1|e w1|]; [done| |done].
  destruct e as [msg| | |]; try done.
  specialize (Hh msg w1). destruct (h msg w1) as [b w2|e w2|]; [| |done];
    intros p Hp; by apply Hh, Hm.
Qed.

Lemma keeps_dirs_for_each {A} (l : list A) (body : A -> M unit) :
  (forall x, keeps_dirs (body x)) -> keeps_dirs (for_each l body).
Proof.
  intros Hb. induction l as [|x l IH]; [apply keeps_dirs_ret|].
  cbn [for_each]. apply keeps_dirs_bind; [apply Hb|]. intros _. exact IH.
Qed.

Lemma keeps_dirs_emit e : keeps_dirs (Os.emit e).
Proof. intros w. unfold Os.emit. cbn. auto. Qed.

Lemma keeps_dirs_raise {A} e : keeps_dirs (raise e : M A).
Proof. intros w. unfold raise. auto. Qed.

Lemma keeps_dirs_sleep d : keeps_dirs (Os.sleep d).
Proof.
  intros w. unfold Os.sleep. destruct (d <? 0);
    [apply keeps_dirs_raise|apply keeps_dirs_emit].
Qed.

Lemma is_Some_insert_dir (fs : gmap string (gmap string node)) dir d p :
  is_Some (fs !! p) -> is_Some (<[dir := d]> fs !! p).
Proof.
  intros Hp. destruct (decide (p = dir)) as [->|Hne].
  - rewrite lookup_insert_eq. eauto.
  - by rewrite lookup_insert_ne.
Qed.

Lemma keeps_dirs_makedirs p : keeps_dirs (Os.makedirs p).
Proof.
  intros w. unfold Os.makedirs. destruct (String.eqb p ""); [done|].
  destruct (w_fs w !! p); [done|]. intros q. cbn. apply is_Some_insert_dir.
Qed.

Lemma keeps_dirs_open_w p : keeps_dirs (Os.open_w p).
Proof.
  intros w. unfold Os.open_w. repeat case_match; simplify_eq; try done;
    intros q; cbn; apply is_Some_insert_dir.
Qed.

Lemma keeps_dirs_write p data : keeps_dirs (Os.write p data).
Proof.
  intros w. unfold Os.write. repeat case_match; simplify_eq; try done;
    intros q; cbn; apply is_Some_insert_dir.
Qed.

Lemma keeps_dirs_remove p : keeps_dirs (Os.remove p).
Proof.
  intros w. unfold Os.remove. repeat case_match; simplify_eq; try done;
    intros q; cbn; apply is_Some_insert_dir.
Qed.

Lemma keeps_dirs_listdir p : keeps_dirs (Os.listdir p).
Proof. intros w. unfold Os.listdir. repeat case_match; simplify_eq; auto. Qed.

Ltac keeps_dirs_step :=
  first
    [ apply keeps_dirs_ret | apply keeps_dirs_emit | apply keeps_dirs_raise
    | apply keeps_dirs_sleep | apply keeps_dirs_makedirs | apply keeps_dirs_open_w
    | apply keeps_dirs_write | apply keeps_dirs_remove | apply keeps_dirs_listdir
    | apply keeps_dirs_bind | apply keeps_dirs_except | apply keeps_dirs_for_each
    | progress intros ].

Lemma keeps_dirs_attempt_once srv tf url segment_str retries attempt st :
  keeps_dirs (attempt_once srv tf url segment_str retries attempt st).
Proof.
  unfold attempt_once, requests_get, write_content, Os.print.
  repeat keeps_dirs_step.
  - destruct (srv _ _); keeps_dirs_step.
  - destruct (status_code _ =? 200); repeat keeps_dirs_step.
    destruct (cut_short _); keeps_dirs_step.
Qed.

Lemma keeps_dirs_retry_loop srv tf url segment_str retries backoff attempts st :
  keeps_dirs (retry_loop srv tf url segment_str retries backoff attempts st).
Proof.
  induction attempts as [|a rest IH]; [apply keeps_dirs_ret|].
  cbn [retry_loop]. apply keeps_dirs_bind; [apply keeps_dirs_attempt_once|].
  intros [st'|]; [apply keeps_dirs_ret|].
  apply keeps_dirs_bind; [|intros _; exact IH].
  destruct (a <? retries - 1); keeps_dirs_step.
Qed.

Lemma keeps_dirs_fetch_step srv base_url tf retries backoff st :
  keeps_dirs (fetch_step srv base_url tf retries backoff st).
Proof.
  unfold fetch_step. apply keeps_dirs_bind; [apply keeps_dirs_retry_loop|].
  intros [success st1]. unfold Os.print. destruct (negb success); [|keeps_dirs_step].
  apply keeps_dirs_bind; [keeps_dirs_step|]. intros _.
  destruct (_ >=? 5); repeat keeps_dirs_step.
Qed.

Lemma keeps_dirs_fetch_loop fuel srv base_url tf retries backoff st :
  keeps_dirs (fetch_loop fuel srv base_url tf retries backoff st).
Proof.
  revert st. induction fuel as [|fuel IH]; intros st; [by intros w|].
  cbn [fetch_loop]. apply keeps_dirs_bind; [apply keeps_dirs_fetch_step|].
  intros [[] st']; [keeps_dirs_step|apply IH].
Qed.






(** ** The muxer call *)

Lemma dirname_bare name : sep_free name = true -> PosixPath.dirname name = EmptyString.
Proof.
  intros Hn. destruct (split_join "" name eq_refl Hn) as [Hd _].
  unfold PosixPath.join in Hd.
  assert (PyStr.startswith name "/" = false) as E.
  { destruct name as [|c name]; [done|]. unfold sep_free in Hn. simpl in Hn.
    apply andb_prop in Hn as [Hc _]. apply negb_true_iff in Hc.
    unfold PosixPath.is_sep in Hc. cbn [PyStr.startswith].
    by rewrite Ascii.eqb_sym, Hc. }
  by rewrite E in Hd.
Qed.

(** X15: given an output path with no directory part,
    [combine_ts_files_ffmpeg] raises before running anything:
    [os.makedirs] refuses the empty directory name. *)
Theorem combine_refuses_bare_output_name
    (file_list_path output_file : string) (w : world) :
  sep_free output_file = true ->
  combine_ts_files_ffmpeg file_list_path output_file w
  = Raise (FileNotFoundError "") w.
Proof.
  intros Hn. unfold combine_ts_files_ffmpeg. apply bind_Raise.
  by rewrite (dirname_bare _ Hn).
Qed.



(** ** The concat list, again *)

(** X17: [create_ffmpeg_file_list] does not create the working directory:
    without it the call raises, and nothing is written or printed. *)
Theorem create_ffmpeg_file_list_needs_the_folder
    (ts_files : list string) (temp_folder : string) (w : world) :
  tidy temp_folder ->
  w_fs w !! temp_folder = None ->
  create_ffmpeg_file_list ts_files temp_folder w
  = Raise (FileNotFoundError (PosixPath.join temp_folder "file_list.txt")) w.
Proof.
  intros Ht Hd. unfold create_ffmpeg_file_list. apply bind_Raise.
  destruct (split_join temp_folder "file_list.txt" Ht eq_refl) as [Edir _].
  unfold Os.open_w. by rewrite Edir, Hd.
Qed.

(** X18: for the paths a download returns, the concat list names the
    segment files themselves: each line is [file 'NNNNNN.ts'], a name
    relative to the working directory, where the list lies too. *)
Theorem manifest_names_segment_files (temp_folder : string) (idxs : list Z) :
  tidy temp_folder ->
  manifest_lines (map (segment_file temp_folder) idxs)
  = map (fun i => "file '" +:+ segment_name i +:+ "'") idxs
  /\ PosixPath.dirname (PosixPath.join temp_folder "file_list.txt") = temp_folder.
Proof.
  intros Ht. split.
  - unfold manifest_lines. rewrite map_map. apply map_ext. intros i.
    destruct (split_join temp_folder _ Ht (segment_name_sep_free i)) as [_ Hb].
    unfold segment_file. fold (segment_name i). by rewrite Hb.
  - by destruct (split_join temp_folder "file_list.txt" Ht eq_refl).
Qed.


(** ** Cleanup, again *)

Lemma cleanup_run ts_folder w d :
  ts_folder <> EmptyString -> tidy ts_folder ->
  w_fs w !! ts_folder = Some d -> flat d ->
  cleanup_ts_files ts_folder w
  = Ok tt {| w_fs := <[ts_folder := swept (map_to_list d).*1 d]> (w_fs w);
             w_log := w_log w ++ [EPrint "All .ts files have been deleted."] |}
  /\ forall name,
       swept (map_to_list d).*1 d !! name
       = if PyStr.endswith name ".ts" then None else d !! name.
Proof.
  intros Hne Ht Hd Hflat. split.
  - unfold cleanup_ts_files.
    erewrite bind_Ok; cycle 1.
    { unfold Os.listdir. destruct (String.eqb_spec ts_folder ""); [done|].
      rewrite Hd. reflexivity. }
    erewrite bind_Ok; cycle 1.
    { apply (cleanup_loop ts_folder _ w d); [done| | |done].
      - apply NoDup_fst_map_to_list.
      - intros name [[n e] [-> Hin]]%list_elem_of_fmap.
        apply elem_of_map_to_list in Hin. destruct (Hflat _ _ Hin) as [He Hs].
        split; [done|]. destruct e as [c|]; [by exists c|done]. }
    reflexivity.
  - intros name. rewrite swept_lookup.
    destruct (PyStr.endswith name ".ts"); [|by rewrite andb_false_r].
    rewrite andb_true_r. case_bool_decide as Hin; [done|].
    destruct (d !! name) as [e|] eqn:E; [|done].
    exfalso. apply Hin. apply list_elem_of_fmap. exists (name, e).
    split; [done|]. by apply elem_of_map_to_list.
Qed.

(** X19: cleaning twice is cleaning once: in a flat directory the second
    [cleanup_ts_files] finds nothing to remove and leaves every file as
    the first left it. *)
Theorem cleanup_ts_files_twice (ts_folder : string) (w : world)
    (d : gmap string node) :
  ts_folder <> EmptyString -> tidy ts_folder ->
  w_fs w !! ts_folder = Some d -> flat d ->
  exists w1 w2 : world,
    cleanup_ts_files ts_folder w = Ok tt w1
    /\ cleanup_ts_files ts_folder w1 = Ok tt w2
    /\ w_fs w2 = w_fs w1.
Proof.
  intros Hne Ht Hd Hflat.
  destruct (cleanup_run ts_folder w d Hne Ht Hd Hflat) as [Hrun Hlook].
  set (d1 := swept (map_to_list d).*1 d) in *.
  assert (flat d1) as Hflat1.
  { intros name e He. rewrite Hlook in He.
    destruct (PyStr.endswith name ".ts"); [done|]. by apply (Hflat name). }
  eexists. eexists. split; [exact Hrun|].
  destruct (cleanup_run ts_folder
              {| w_fs := <[ts_folder := d1]> (w_fs w);
                 w_log := w_log w ++ [EPrint "All .ts files have been deleted."] |}
              d1 Hne Ht (lookup_insert_eq _ _ _) Hflat1) as [Hrun2 Hlook2].
  split; [exact Hrun2|]. cbn [w_fs]. rewrite insert_insert_eq. f_equal.
  apply map_eq. intros name. rewrite Hlook2, Hlook.
  by destruct (PyStr.endswith name ".ts").
Qed.

Lemma cleanup_loop_blocked ts_folder bad l w d :
  tidy ts_folder -> sep_free bad = true -> PyStr.endswith bad ".ts" = true ->
  bad ∈ l ->
  w_fs w !! ts_folder = Some d -> d !! bad = Some NDir ->
  exists e w',
    for_each l (fun ts_file =>
      if PyStr.endswith ts_file ".ts"
      then Os.remove (PosixPath.join ts_folder ts_file)
      else mret tt) w = Raise e w'
    /\ w_log w' = w_log w
    /\ entry w' ts_folder bad = Some NDir.
Proof.
  intros Ht Hs Hend. revert w d. induction l as [|x l IH]; intros w d Hin Hd Hbad.
  - by apply elem_of_nil in Hin.
  - cbn [for_each].
    assert (entry w ts_folder bad = Some NDir) as Hentry
      by (unfold entry; by rewrite Hd).
    destruct (decide (x = bad)) as [->|Hne].
    + rewrite Hend. destruct (split_join ts_folder bad Ht Hs) as [Edir Ebase].
      eexists. exists w. split; [|done]. apply bind_Raise.
      unfold Os.remove. by rewrite Edir, Ebase, Hd, Hbad.
    + apply elem_of_cons in Hin as [->|Hin]; [done|].
      unfold mbind, M_bind.
      destruct (PyStr.endswith x ".ts").
      * unfold Os.remove.
        destruct (w_fs w !! PosixPath.dirname (PosixPath.join ts_folder x))
          as [dx|] eqn:Edx; [|by eexists; exists w].
        destruct (dx !! PosixPath.basename (PosixPath.join ts_folder x))
          as [[c|]|] eqn:Ex; [|by eexists; exists w|by eexists; exists w].
        destruct (decide (PosixPath.dirname (PosixPath.join ts_folder x) = ts_folder))
          as [Edir|Edir].
        -- rewrite Edir in *. assert (dx = d) as -> by congruence.
           destruct (IH (Os.set_fs (<[ts_folder :=
                           delete (PosixPath.basename (PosixPath.join ts_folder x)) d]>
                           (w_fs w)) w)
                       (delete (PosixPath.basename (PosixPath.join ts_folder x)) d))
             as (e & w' & Hrun & Hlog & Hent); [done|apply lookup_insert_eq| |].
           { rewrite lookup_delete_ne; [done|]. intros E. rewrite E in Ex.
             congruence. }
           exists e, w'. done.
        -- destruct (IH (Os.set_fs (<[PosixPath.dirname (PosixPath.join ts_folder x) :=
                           delete (PosixPath.basename (PosixPath.join ts_folder x)) dx]>
                           (w_fs w)) w) d)
             as (e & w' & Hrun & Hlog & Hent); [done| |done|].
           { cbn [w_fs Os.set_fs]. by rewrite lookup_insert_ne. }
           exists e, w'. done.
      * unfold mret, M_ret. by apply (IH w d).
Qed.

(** X20: a subdirectory whose name ends with [.ts] stops
    [cleanup_ts_files]: the call raises, the subdirectory stays, and the
    closing message is not printed. *)
Theorem cleanup_ts_files_stops_at_a_directory
    (ts_folder bad : string) (w : world) (d : gmap string node) :
  ts_folder <> EmptyString -> tidy ts_folder ->
  w_fs w !! ts_folder = Some d ->
  d !! bad = Some NDir -> sep_free bad = true -> PyStr.endswith bad ".ts" = true ->
  exists e w',
    cleanup_ts_files ts_folder w = Raise e w'
    /\ w_log w' = w_log w
    /\ entry w' ts_folder bad = Some NDir.
Proof.
  intros Hne Ht Hd Hbad Hs Hend. unfold cleanup_ts_files.
  erewrite bind_Ok; cycle 1.
  { unfold Os.listdir. destruct (String.eqb_spec ts_folder ""); [done|].
    rewrite Hd. reflexivity. }
  destruct (cleanup_loop_blocked ts_folder bad (map_to_list d).*1 w d)
    as (e & w' & Hrun & Hlog & Hent); try done.
  { apply list_elem_of_fmap. exists (bad, NDir). split; [done|].
    by apply elem_of_map_to_list. }
  exists e, w'. split; [|done]. by apply bind_Raise.
Qed.

(** ** The working directory after a download *)

Lemma stored_after_cases srv seg attempts old :
  stored_after srv seg attempts old = old
  \/ exists content, stored_after srv seg attempts old = Some (NFile content).
Proof.
  revert old. induction attempts as [|a rest IH]; intros old; [by left|].
  cbn [stored_after].
  assert (stored srv seg a old = old
          \/ exists content, stored srv seg a old = Some (NFile content)) as Hst.
  { unfold stored. destruct (srv seg a) as [r|]; [|by left].
    destruct (status_code r =? 200); [right; eauto|by left]. }
  destruct (delivers (srv seg a)); [exact Hst|].
  destruct (IH (stored srv seg a old)) as [->|H]; [exact Hst|by right].
Qed.

Lemma download_run_dir srv base_url tf retries backoff fuel w st w' :
  download_run fuel srv base_url tf retries backoff w = Ok st w' ->
  is_Some (w_fs w' !! tf).
Proof.
  unfold download_run. unfold mbind at 1. unfold M_bind at 1.
  destruct (Os.makedirs tf w) as [[] w1|e w1|] eqn:Hmk; [|done|done].
  apply makedirs_inv in Hmk as (_ & _ & Hdir). intros Hrest.
  assert (keeps_dirs (Os.print "Starting download..." ;;
                      fetch_loop fuel srv base_url tf retries backoff fetch_start))
    as Hk.
  { apply keeps_dirs_bind; [apply keeps_dirs_emit|]. intros _.
    apply keeps_dirs_fetch_loop. }
  specialize (Hk w1). rewrite Hrest in Hk. by apply Hk.
Qed.

Lemma download_flat_at srv base_url tf retries backoff fuel w files w' :
  tidy tf ->
  download_ts_segments fuel srv base_url tf retries backoff w = Ok files w' ->
  flat_at w tf -> flat_at w' tf.
Proof.
  intros Ht Hdl Hflat.
  apply download_ts_segments_inv in Hdl as (st & Hrun & _).
  apply download_run_inv in Hrun as (w1 & Hent1 & _ & _ & Hloop).
  assert (flat_at w1 tf) as Hflat1.
  { intros name e. rewrite Hent1. apply Hflat. }
  assert (forall st0 w0 stop st0' w0',
            flat_at w0 tf ->
            fetch_step srv base_url tf retries backoff st0 w0
            = Ok (stop, st0') w0' -> flat_at w0' tf) as Hinv.
  { intros st0 w0 stop st0' w0' Hf Hstep.
    apply fetch_step_inv in Hstep as (_ & Hent & _); [|done].
    intros name e. rewrite Hent. case_bool_decide as Hc; [|apply Hf].
    destruct Hc as [_ ->].
    destruct (stored_after_cases srv (segment_number st0) (range retries)
                (entry w0 tf (segment_name (segment_number st0))))
      as [->|[content ->]]; [apply Hf|].
    intros [= <-]. split; [done|apply segment_name_sep_free]. }
  exact (fetch_loop_invariant (fun _ w0 => flat_at w0 tf)
           _ _ _ _ _ Hinv fuel _ _ _ _ Hflat1 Hloop).
Qed.

(** X21: a download that returns leaves the working directory in place and
    as flat as it found it: it creates no subdirectory, and every file it
    adds has a name without separator. *)
Theorem download_keeps_the_folder_flat (fuel : nat) (srv : oracle)
    (base_url temp_folder : string) (retries backoff : Z) (w w' : world)
    (files : list string) :
  tidy temp_folder ->
  download_ts_segments fuel srv base_url temp_folder retries backoff w
  = Ok files w' ->
  flat_at w temp_folder ->
  flat_at w' temp_folder /\ is_Some (w_fs w' !! temp_folder).
Proof.
  intros Ht Hdl Hflat. split; [by apply (download_flat_at _ _ _ _ _ _ _ _ _ Ht Hdl)|].
  apply download_ts_segments_inv in Hdl as (st & Hrun & _).
  by apply download_run_dir in Hrun.
Qed.



(** ** A run that downloads something *)


(** ** No path twice, and the price of a dead segment *)

(** X23: the list a download returns holds no path twice. *)
Theorem download_returns_distinct_paths (fuel : nat) (srv : oracle)
    (base_url temp_folder : string) (retries backoff : Z) (w w' : world)
    (files : list string) :
  download_ts_segments fuel srv base_url temp_folder retries backoff w
  = Ok files w' ->
  NoDup files.
Proof.
  intros Hdl. apply download_ts_segments_inv in Hdl as (st & Hrun & ->).
  unfold download_run, mbind, M_bind in Hrun.
  destruct (Os.makedirs temp_folder w) as [[] w1|e w1|]; [|done|done].
  destruct (Os.print _ w1) as [[] w2|e w2|]; [|done|done].
  apply listed_loop in Hrun as (idxs & -> & Hsorted & Hbound); [|done|].
  - apply (NoDup_fmap_2_strong (segment_file temp_folder));
      [|by apply strictly_sorted_NoDup].
    intros i j Hi Hj E. rewrite Forall_forall in Hbound.
    apply Hbound in Hi. apply Hbound in Hj.
    apply (segment_file_inj_aux temp_folder); [lia|lia|done].
  - exists []. repeat split; constructor.
Qed.

Lemma total_backoff (backoff : Z) (m : nat) :
  2 * total (map (fun a => backoff * (a + 1)) (map Z.of_nat (seq 0 m)))
  = backoff * Z.of_nat m * (Z.of_nat m + 1).
Proof.
  induction m as [|m IH]; [cbn; lia|].
  rewrite seq_S, !map_app. cbn [map Nat.add].
  assert (forall l1 l2, total (l1 ++ l2) = total l1 + total l2) as Happ.
  { intros l1 l2. induction l1 as [|x l1 IHl]; [done|].
    cbn [app]. unfold total in *. cbn [fold_right]. rewrite IHl. lia. }
  rewrite Happ. unfold total at 2. cbn [fold_right].
  replace (Z.of_nat (S m)) with (Z.of_nat m + 1) by lia. nia.
Qed.

(** X24: a segment that fails all of its [retries] attempts costs, in
    sleeps, [backoff * (1 + 2 + ... + (retries - 1))]: with the defaults,
    2 + 4 = 6. *)
Theorem failed_segment_sleeps (srv : oracle) (base_url temp_folder : string)
    (retries backoff : Z) (st : fetch_state) (w : world) :
  tidy temp_folder -> ready temp_folder w -> 0 <= backoff -> 1 <= retries ->
  succeeds srv retries (segment_number st) = false ->
  exists (w' : world) (slept : list Z),
    retry_loop srv temp_folder (segment_url base_url (segment_number st))
      (PyStr.format_06d (segment_number st)) retries backoff (range retries) st w
    = Ok (false, st) w'
    /\ sleeps (w_log w') = sleeps (w_log w) ++ slept
    /\ 2 * total slept = backoff * retries * (retries - 1).
Proof.
  intros Ht Hr Hb Hret Hfail.
  destruct (retry_loop_run srv temp_folder (segment_url base_url (segment_number st))
              retries backoff (range retries) st w Ht Hr Hb (range_nonneg _))
    as (w' & Hrun & _ & Hs).
  unfold succeeds in Hfail. rewrite Hfail in Hrun.
  rewrite failed_first_all in Hs by done.
  eexists. eexists. split; [exact Hrun|]. split; [exact Hs|].
  unfold range. rewrite filter_below_seq, total_backoff. nia.
Qed.

(** ** The further properties at work on sample runs *)

Lemma used_folder_flat : flat used_folder.
Proof.
  unfold flat, used_folder. repeat apply map_Forall_insert_2;
    try (split; [discriminate|reflexivity]). apply map_Forall_empty.
Defined.

Lemma bare_world_flat : flat_at bare_world "temp_files".
Proof. intros name e H. vm_compute in H. discriminate. Defined.

Lemma sanitize_filename_single_component_witness :
  sep_free (sanitize_filename " a/b:c.ts ") = true
  /\ PosixPath.basename (PosixPath.join "temp_files" (sanitize_filename " a/b:c.ts "))
     = sanitize_filename " a/b:c.ts "
  /\ PosixPath.dirname (PosixPath.join "temp_files" (sanitize_filename " a/b:c.ts "))
     = "temp_files".
Proof.
  apply (sanitize_filename_single_component "temp_files" " a/b:c.ts ").
  reflexivity.
Defined.

Lemma format_06d_reads_back_witness :
  read_digits (PyStr.format_06d 42) = Some (Z.to_N 42)
  /\ PyStr.all (PyStr.between 48 57) (PyStr.format_06d 42) = true
  /\ (6 <= String.length (PyStr.format_06d 42))%nat.
Proof. apply (format_06d_reads_back 42). lia. Defined.

Lemma segment_file_injective_witness : 3 = 3.
Proof.
  apply (segment_file_injective "temp_files" 3 3); [lia|lia|reflexivity].
Defined.

Lemma segment_url_without_marker_witness :
  segment_url "https://cdn.example/v/video.ts" 7 = "https://cdn.example/v/video.ts".
Proof.
  apply (segment_url_without_marker "https://cdn.example/v/video.ts" 7).
  reflexivity.
Defined.

Lemma segment_url_injective_witness : 5 = 5.
Proof.
  apply (segment_url_injective sample_url 5 5);
    [reflexivity|lia|lia|reflexivity].
Defined.

Lemma turn_requests_witness :
  gets (w_log (world_of (fetch_step dead_server sample_url "temp_files" 3 2
                           fetch_start used_world) used_world))
  = gets (w_log used_world)
    ++ replicate (attempts_made dead_server 0 (range 3)) (segment_url sample_url 0, 10)
  /\ (attempts_made dead_server 0 (range 3) <= Z.to_nat 3)%nat
  /\ (succeeds dead_server 3 0 = false ->
      attempts_made dead_server 0 (range 3) = Z.to_nat 3).
Proof.
  apply (turn_requests dead_server sample_url "temp_files" 3 2 fetch_start
           (FetchState 1 1 []) used_world _ false).
  - reflexivity.
  - vm_compute. reflexivity.
Defined.

Lemma download_returns_delivered_segments_witness :
  exists n : Z,
    4 <= n
    /\ (forall j, n - 4 <= j <= n -> succeeds short_stream 3 j = false)
    /\ (forall s, 4 <= s < n ->
          exists j, s - 4 <= j <= s /\ succeeds short_stream 3 j = true)
    /\ ["temp_files/000000.ts"; "temp_files/000001.ts"; "temp_files/000002.ts"]
       = map (segment_file "temp_files")
           (List.filter (succeeds short_stream 3) (range n)).
Proof.
  apply (download_returns_delivered_segments 8 short_stream sample_url "temp_files"
           3 2 bare_world
           (world_of (download_ts_segments 8 short_stream sample_url "temp_files"
                        3 2 bare_world) bare_world)).
  - reflexivity.
  - vm_compute. reflexivity.
Defined.

Lemma download_never_ends_on_a_live_stream_witness :
  (forall fuel files w',
     download_ts_segments fuel live_stream sample_url "temp_files" 3 2 bare_world
     <> Ok files w')
  /\ (usable "temp_files" bare_world -> 0 <= 2 ->
      forall fuel,
        download_ts_segments fuel live_stream sample_url "temp_files" 3 2 bare_world
        = OutOfFuel).
Proof.
  apply (download_never_ends_on_a_live_stream live_stream sample_url "temp_files"
           3 2 bare_world).
  - reflexivity.
  - intros s Hs. exists s. split; [lia|reflexivity].
Defined.

Lemma download_from_dead_host_witness :
  exists w' : world,
    download_ts_segments 5 dead_server sample_url "temp_files" 3 2 bare_world
    = Ok [] w'
    /\ gets (w_log w')
       = gets (w_log bare_world)
         ++ flat_map (fun i => replicate (Z.to_nat 3) (segment_url sample_url i, 10))
              [0; 1; 2; 3; 4].
Proof.
  apply (download_from_dead_host dead_server sample_url "temp_files" 3 2 5 bare_world).
  - reflexivity.
  - split; [discriminate|]. vm_compute. exact I.
  - lia.
  - intros seg a _ _. reflexivity.
  - lia.
Defined.

Lemma download_raises_on_negative_backoff_witness :
  exists w' : world,
    download_ts_segments 1 dead_server sample_url "temp_files" 3 (-1) bare_world
    = Raise (ValueError "sleep length must be non-negative") w'
    /\ gets (w_log w') = gets (w_log bare_world) ++ [(segment_url sample_url 0, 10)].
Proof.
  apply (download_raises_on_negative_backoff dead_server sample_url "temp_files"
           3 (-1) 0 bare_world).
  - reflexivity.
  - split; [discriminate|]. vm_compute. exact I.
  - lia.
  - lia.
  - reflexivity.
Defined.

Lemma download_touches_segment_files_only_witness :
  entry (world_of (download_ts_segments 8 short_stream sample_url "temp_files"
                     3 2 used_world) used_world) "temp_files" "notes.txt"
  = entry used_world "temp_files" "notes.txt".
Proof.
  apply (download_touches_segment_files_only 8 short_stream sample_url "temp_files"
           3 2 used_world _
           ["temp_files/000000.ts"; "temp_files/000001.ts"; "temp_files/000002.ts"]).
  - reflexivity.
  - vm_compute. reflexivity.
  - right. intros i Hi E.
    assert (PyStr.last_is (PyStr.between 115 115) "notes.txt" = false) as Hl
      by reflexivity.
    rewrite E in Hl. unfold segment_name in Hl.
    rewrite last_is_app_nonempty in Hl by done. discriminate Hl.
Defined.

Lemma download_stores_delivered_bodies_witness :
  exists idxs : list Z,
    ["temp_files/000000.ts"; "temp_files/000001.ts"; "temp_files/000002.ts"]
    = map (segment_file "temp_files") idxs
    /\ Forall (fun i =>
         exists r : response,
           first_delivery short_stream i (range 3) = Some r
           /\ entry (world_of (download_ts_segments 8 short_stream sample_url
                                 "temp_files" 3 2 bare_world) bare_world)
                (PosixPath.dirname (segment_file "temp_files" i))
                (PosixPath.basename (segment_file "temp_files" i))
              = Some (NFile (body_of r))) idxs.
Proof.
  apply (download_stores_delivered_bodies 8 short_stream sample_url "temp_files"
           3 2 bare_world).
  - reflexivity.
  - vm_compute. reflexivity.
Defined.


Lemma combine_refuses_bare_output_name_witness :
  combine_ts_files_ffmpeg "temp_files/file_list.txt" "video.mp4" used_world
  = Raise (FileNotFoundError "") used_world.
Proof.
  apply (combine_refuses_bare_output_name "temp_files/file_list.txt" "video.mp4"
           used_world).
  reflexivity.
Defined.


Lemma create_ffmpeg_file_list_needs_the_folder_witness :
  create_ffmpeg_file_list ["temp_files/000000.ts"] "temp_files" bare_world
  = Raise (FileNotFoundError (PosixPath.join "temp_files" "file_list.txt"))
      bare_world.
Proof.
  apply (create_ffmpeg_file_list_needs_the_folder ["temp_files/000000.ts"]
           "temp_files" bare_world); reflexivity.
Defined.

Lemma manifest_names_segment_files_witness :
  manifest_lines (map (segment_file "temp_files") [0; 1; 2])
  = map (fun i => "file '" +:+ segment_name i +:+ "'") [0; 1; 2]
  /\ PosixPath.dirname (PosixPath.join "temp_files" "file_list.txt") = "temp_files".
Proof.
  apply (manifest_names_segment_files "temp_files" [0; 1; 2]). reflexivity.
Defined.

Lemma cleanup_ts_files_twice_witness :
  exists w1 w2 : world,
    cleanup_ts_files "temp_files" used_world = Ok tt w1
    /\ cleanup_ts_files "temp_files" w1 = Ok tt w2
    /\ w_fs w2 = w_fs w1.
Proof.
  apply (cleanup_ts_files_twice "temp_files" used_world used_folder).
  - discriminate.
  - reflexivity.
  - reflexivity.
  - exact used_folder_flat.
Defined.

Lemma cleanup_ts_files_stops_at_a_directory_witness :
  exists e w',
    cleanup_ts_files "temp_files" blocked_world = Raise e w'
    /\ w_log w' = w_log blocked_world
    /\ entry w' "temp_files" "old.ts" = Some NDir.
Proof.
  apply (cleanup_ts_files_stops_at_a_directory "temp_files" "old.ts" blocked_world
           blocked_folder).
  - discriminate.
  - reflexivity.
  - reflexivity.
  - reflexivity.
  - reflexivity.
  - reflexivity.
Defined.

Lemma download_keeps_the_folder_flat_witness :
  flat_at (world_of (download_ts_segments 8 short_stream sample_url "temp_files"
                       3 2 bare_world) bare_world) "temp_files"
  /\ is_Some (w_fs (world_of (download_ts_segments 8 short_stream sample_url
                                "temp_files" 3 2 bare_world) bare_world)
                !! "temp_files").
Proof.
  apply (download_keeps_the_folder_flat 8 short_stream sample_url "temp_files"
           3 2 bare_world _
           ["temp_files/000000.ts"; "temp_files/000001.ts"; "temp_files/000002.ts"]).
  - reflexivity.
  - vm_compute. reflexivity.
  - exact bare_world_flat.
Defined.


Lemma download_returns_distinct_paths_witness :
  NoDup ["temp_files/000000.ts"; "temp_files/000001.ts"; "temp_files/000002.ts"].
Proof.
  apply (download_returns_distinct_paths 8 short_stream sample_url "temp_files"
           3 2 bare_world
           (world_of (download_ts_segments 8 short_stream sample_url "temp_files"
                        3 2 bare_world) bare_world)).
  vm_compute. reflexivity.
Defined.

Lemma failed_segment_sleeps_witness :
  exists (w' : world) (slept : list Z),
    retry_loop dead_server "temp_files" (segment_url sample_url 0)
      (PyStr.format_06d 0) 3 2 (range 3) fetch_start used_world
    = Ok (false, fetch_start) w'
    /\ sleeps (w_log w') = sleeps (w_log used_world) ++ slept
    /\ 2 * total slept = 2 * 3 * (3 - 1).
Proof.
  apply (failed_segment_sleeps dead_server sample_url "temp_files" 3 2 fetch_start
           used_world).
  - reflexivity.
  - exact used_world_ready.
  - lia.
  - lia.
  - reflexivity.
Defined.
